(** * Medium-articles chatbot: tools, workflows and the /chat endpoint

    A shallow embedding of [app/tools.py], [app/workflows.py] and
    [simple_api.py], with the properties their specification states.

    Conventions of the embedding.
    - A Python [str] is a [string] holding its UTF-8 encoding.  Substring
      search ([in]) and comparison ([<], [min], [max]) on the encoding agree
      with the same operations on code points; [len] and slicing count code
      points ([Py.len], [Py.take]).
    - [str.lower] follows the case tables of Unicode, which are not part of
      the program: it is a parameter [lower] of the functions that call it.
      What it does on a string of ASCII characters is [Py.ascii_lower], and
      a property that needs this says so ([Py.lowers_ascii]).  [str.title] is
      only applied to keywords written in the source, all ASCII, and is
      given on the ASCII letters.
    - A JSON object is a record; a key read with [.get(k, d)] is an [option]
      field ([None]: key absent), a list-valued key read with [.get(k, [])]
      is a list (absent: the empty list).
    - A [dict] whose iteration order matters is an association list in
      insertion order.
    - An exception is the text [str(e)] of its message. *)

From Stdlib Require Import List Bool Arith ZArith Lia.
From Stdlib Require Import Ascii String DecimalString.
From Stdlib Require Import Permutation Sorted SpecFloat OrdersEx RelationClasses.
Import ListNotations.

Local Open Scope list_scope.
Local Open Scope string_scope.

(** [++] appends strings; [+++] appends lists. *)
Local Infix "+++" := (@app _) (at level 60, right associativity).

(* ================================================================== *)
(** * Python primitives used by the program *)
(* ================================================================== *)

Module Py.

(** The newline character, written [\n] in the source. *)
Definition nl : string := String (ascii_of_nat 10) "".

(** [bool(s)] for a string: non-empty. *)
Definition truthy (s : string) : bool :=
  match s with "" => false | String _ _ => true end.

Definition is_upper (c : ascii) : bool :=
  (65 <=? nat_of_ascii c)%nat && (nat_of_ascii c <=? 90)%nat.

Definition is_lower (c : ascii) : bool :=
  (97 <=? nat_of_ascii c)%nat && (nat_of_ascii c <=? 122)%nat.

Definition lower_char (c : ascii) : ascii :=
  if is_upper c then ascii_of_nat (nat_of_ascii c + 32) else c.

Definition upper_char (c : ascii) : ascii :=
  if is_lower c then ascii_of_nat (nat_of_ascii c - 32) else c.

(** [s.lower()] on a string of ASCII characters. *)
Fixpoint ascii_lower (s : string) : string :=
  match s with
  | "" => ""
  | String c s' => String (lower_char c) (ascii_lower s')
  end.

(** Is every character of the string an ASCII character. *)
Fixpoint is_ascii (s : string) : bool :=
  match s with
  | "" => true
  | String c s' => (nat_of_ascii c <? 128)%nat && is_ascii s'
  end.

(** What is known of [str.lower] without the case tables. *)
Definition lowers_ascii (lower : string -> string) : Prop :=
  forall s, is_ascii s = true -> lower s = ascii_lower s.

(** [s.title()]: a cased character that follows an uncased one is put in
    upper case, every other cased character in lower case. *)
Fixpoint title_from (previous_is_cased : bool) (s : string) : string :=
  match s with
  | "" => ""
  | String c s' =>
      if is_lower c then
        String (if previous_is_cased then c else upper_char c) (title_from true s')
      else if is_upper c then
        String (if previous_is_cased then lower_char c else c) (title_from true s')
      else String c (title_from false s')
  end.

Definition title (s : string) : string := title_from false s.

(** [needle in hay] *)
Fixpoint contains (needle hay : string) : bool :=
  String.prefix needle hay
  || match hay with
     | "" => false
     | String _ hay' => contains needle hay'
     end.

(** Does the character occur in the string. *)
Fixpoint has_char (c : ascii) (s : string) : bool :=
  match s with
  | "" => false
  | String c' s' => Ascii.eqb c' c || has_char c s'
  end.

(** [sep.join(parts)] *)
Definition join (sep : string) (parts : list string) : string :=
  String.concat sep parts.

(** [any(p(x) for x in xs)] *)
Definition any {A} (p : A -> bool) (xs : list A) : bool := existsb p xs.


(** A byte [10xxxxxx] continues the code point begun before it. *)
Definition is_continuation (c : ascii) : bool :=
  (128 <=? nat_of_ascii c)%nat && (nat_of_ascii c <=? 191)%nat.

(** [len(s)]: the number of code points. *)
Fixpoint len (s : string) : nat :=
  match s with
  | "" => 0
  | String c s' => if is_continuation c then len s' else S (len s')
  end.

(** [s[:n]]: the first [n] code points. *)
Fixpoint take (n : nat) (s : string) : string :=
  match s with
  | "" => ""
  | String c s' =>
      if is_continuation c then String c (take n s')
      else match n with
           | 0 => ""
           | S n' => String c (take n' s')
           end
  end.

(** [str(n)] for a non-negative and for a signed integer. *)
Definition str_nat (n : nat) : string := NilEmpty.string_of_uint (Nat.to_uint n).
Definition str_int (z : Z) : string := NilEmpty.string_of_int (Z.to_int z).

(** [d.get(k, default)] on a dict given by its items. *)
Fixpoint dict_get {V} (d : list (string * V)) (k : string) (default : V) : V :=
  match d with
  | [] => default
  | (k', v) :: d' => if String.eqb k' k then v else dict_get d' k default
  end.

(** [min(xs)] and [max(xs)] of a non-empty list of strings; the first
    extremal element is kept, as Python does. *)
Definition str_min (x : string) (xs : list string) : string :=
  fold_left (fun m y => if String.ltb y m then y else m) xs x.

Definition str_max (x : string) (xs : list string) : string :=
  fold_left (fun m y => if String.ltb m y then y else m) xs x.

(** A stable sort: [insert_by le x l] puts [x] before the first element [y]
    of [l] with [le x y]; [sorted(l, key=k)] is [sort_by] of
    [fun x y => k x <= k y], and [l.sort(key=k, reverse=True)], which keeps
    equal keys in their order too, is [sort_by] of [fun x y => k y <= k x]. *)
Fixpoint insert_by {A} (le : A -> A -> bool) (x : A) (l : list A) : list A :=
  match l with
  | [] => [x]
  | y :: l' => if le x y then x :: l else y :: insert_by le x l'
  end.

Definition sort_by {A} (le : A -> A -> bool) (l : list A) : list A :=
  fold_right (insert_by le) [] l.

(** Do the elements that satisfy [p] all come before the others. *)
Fixpoint all_before {A} (p : A -> bool) (l : list A) : bool :=
  match l with
  | [] => true
  | x :: l' => if p x then all_before p l' else forallb (fun y => negb (p y)) l'
  end.

(** The result of a call that may raise: the value returned, or the text
    [str(e)] of the exception [e] (of class [Exception]) raised. *)
Inductive outcome (A : Type) : Type :=
| Returned (a : A)
| Raised (e : string).

Arguments Returned {A} a.
Arguments Raised {A} e.

(** [format(x, ".2f")] of a double, given as its IEEE 754 value: the exact
    value is rounded to the nearest multiple of 1/100, ties to even. *)
Definition round_half_even (num den : Z) : Z :=
  let q := (num / den)%Z in
  let r := (num mod den)%Z in
  if (den <? 2 * r)%Z || ((den =? 2 * r)%Z && Z.odd q) then (q + 1)%Z else q.

Definition hundredths (m : positive) (e : Z) : Z :=
  if (0 <=? e)%Z then (Z.pos m * 100 * 2 ^ e)%Z
  else round_half_even (Z.pos m * 100) (2 ^ (- e)).

Definition two_digits (n : Z) : string :=
  (if (n <? 10)%Z then "0" else "") ++ str_int n.

Definition sign_text (s : bool) : string := if s then "-" else "".

Definition format_2f (x : spec_float) : string :=
  match x with
  | S754_nan => "nan"
  | S754_infinity s => sign_text s ++ "inf"
  | S754_zero s => sign_text s ++ "0.00"
  | S754_finite s m e =>
      let h := hundredths m e in
      sign_text s ++ str_int (h / 100) ++ "." ++ two_digits (h mod 100)
  end.

End Py.

Import Py.

(* ================================================================== *)
(** * app/tools.py *)
(* ================================================================== *)

Module Tools.

(** An article record of [articles_manifest.json], and an entry of a
    per-technology list of [tech_index.json] (which carries a title and a
    date).  A key that is present holds a value of its type. *)
Record Article : Type := {
  art_title : string;              (* article['title'] *)
  art_date : option string;        (* article.get('date') *)
  art_year : option Z;             (* article.get('year') *)
  art_tags : list string;          (* article.get('tags', []) *)
  art_tech_stack : list string;    (* article.get('tech_stack', []) *)
  art_word_count : option Z;       (* article.get('word_count') *)
  art_content : option string      (* article.get('content') *)
}.

(** A text node returned by the retriever, with its score: its metadata
    ([None] or a dict), its score (a float, or [None]) and its text. *)
Record SearchResult : Type := {
  metadata : option (list (string * string));
  score : option spec_float;
  text : string
}.

(** [x.get(key, default)] for an optional field. *)
Definition get {A} (field : option A) (default : A) : A :=
  match field with Some v => v | None => default end.

(** [if tech:] and [if year:] on optional arguments: [None], the empty
    string and 0 are all false. *)
Definition given_str (x : option string) : option string :=
  match x with
  | Some s => if truthy s then Some s else None
  | None => None
  end.

Definition given_int (x : option Z) : option Z :=
  match x with
  | Some n => if (n =? 0)%Z then None else Some n
  | None => None
  end.

Section Catalog.

(** [str.lower] *)
Variable lower : string -> string.

(** The two globals loaded by [load_data] when the module is imported. *)
Variable articles_manifest : list Article.
Variable tech_index_data : list (string * list Article).

(** The external call of the [try] block of [search_articles]:
    [get_index().as_retriever(similarity_top_k=top_k).retrieve(query)]. *)
Variable retrieve : string -> Z -> outcome (list SearchResult).

(** ** search_articles *)

(** [format(None, ".2f")] raises a [TypeError] with this text. *)
Definition format_none : string :=
  "unsupported format string passed to NoneType.__format__".

(** One round of the loop: the five lines of a result, unless its score is
    [None], which the format [:.2f] does not take. *)
Definition format_result (i : nat) (result : SearchResult)
  : outcome (list string) :=
  let metadata :=
    match result.(metadata) with
    | Some ((_ :: _) as d) => d
    | _ => []                                 (* result.metadata or {} *)
    end in
  let title := dict_get metadata "title" "Unknown" in
  match result.(score) with
  | Some x =>
      Returned
        [ "Result " ++ str_nat i ++ ":";
          "Title: " ++ title;
          "Relevance: " ++ format_2f x;
          "Excerpt: " ++ take 300 result.(text) ++ "...";
          "---" ]
  | None => Raised format_none
  end.

(** The loop over [enumerate(results, i)]; it stops at the first round that
    raises. *)
Fixpoint format_results (i : nat) (results : list SearchResult)
  : outcome (list string) :=
  match results with
  | [] => Returned []
  | result :: rest =>
      match format_result i result with
      | Raised e => Raised e
      | Returned lines =>
          match format_results (S i) rest with
          | Raised e => Raised e
          | Returned more => Returned (lines +++ more)
          end
      end
  end.

Definition search_fallback (e : string) : string :=
  "LlamaCloud search unavailable (" ++ e
  ++ "). Using local article metadata search instead.".

(** What follows the call: the [except] clause, and the code after the
    [try] statement, which is not in a [try]. *)
Definition search_report (retrieved : outcome (list SearchResult)) : outcome string :=
  match retrieved with
  | Raised e => Returned (search_fallback e)
  | Returned results =>
      match results with
      | [] => Returned "No relevant articles found."
      | _ :: _ =>
          match format_results 1 results with
          | Returned output => Returned (join nl output)
          | Raised e => Raised e
          end
      end
  end.

Definition search_articles (query : string) (top_k : Z) : outcome string :=
  search_report (retrieve query top_k).

(** ** filter_by_metadata *)

Definition tech_match (tech : string) (article : Article) : bool :=
  any (fun t => contains (lower tech) (lower t)) article.(art_tech_stack).

Definition tag_match (tag : string) (article : Article) : bool :=
  any (fun t => contains (lower tag) (lower t)) article.(art_tags).

Definition year_differs (article : Article) (year : Z) : bool :=
  match article.(art_year) with
  | Some y => negb (y =? year)%Z
  | None => true
  end.

(** One round of the loop: [false] where the source says [continue]. *)
Definition selected (tech : option string) (year : option Z) (tag : option string)
    (article : Article) : bool :=
  if match given_str tech with
     | Some t => negb (tech_match t article)
     | None => false
     end then false
  else if match given_int year with
          | Some y => year_differs article y
          | None => false
          end then false
  else if match given_str tag with
          | Some t => negb (tag_match t article)
          | None => false
          end then false
  else true.

Definition filter_matches (tech : option string) (year : option Z)
    (tag : option string) : list Article :=
  filter (selected tech year tag) articles_manifest.

Definition filter_entry (tech : option string) (article : Article) : list string :=
  [ "• " ++ article.(art_title);
    "  Date: " ++ get article.(art_date) "Unknown" ]
  +++ match given_str tech with
      | Some _ => [ "  Tech: " ++ join ", " article.(art_tech_stack) ]
      | None => []
      end
  +++ [ "" ].

Definition filter_more (matches : list Article) : list string :=
  if (10 <? List.length matches)%nat
  then [ "... and " ++ str_nat (List.length matches - 10) ++ " more" ]
  else [].

(** The text built from [matches] once the loop is over. *)
Definition filter_report (tech : option string) (matches : list Article) : string :=
  match matches with
  | [] => "No articles found matching the criteria."
  | _ :: _ =>
      join nl
        ([ "Found " ++ str_nat (List.length matches) ++ " matching articles:" ++ nl ]
         +++ flat_map (filter_entry tech) (firstn 10 matches)
         +++ filter_more matches)
  end.

Definition filter_by_metadata (tech : option string) (year : option Z)
    (tag : option string) : string :=
  filter_report tech (filter_matches tech year tag).

(** ** analyze_tech_stack *)

(** The list built by the [extend] loop over [tech_index_data.items()]. *)
Definition matching_articles (technology : string) : list Article :=
  flat_map
    (fun item : string * list Article =>
       let (tech, article_list) := item in
       if contains (lower technology) (lower tech) then article_list else [])
    tech_index_data.

(** The sort key: [x.get('date') or '']. *)
Definition date_key (x : Article) : string := get x.(art_date) "".

(** Has the article a date that is not the empty string. *)
Definition has_date (x : Article) : bool := truthy (date_key x).

(** [matching_articles.sort(key=..., reverse=True)] *)
Definition sort_by_date (l : list Article) : list Article :=
  sort_by (fun x y => String.leb (date_key y) (date_key x)) l.

(** [[a['date'] for a in matching_articles if a.get('date')]] *)
Definition dates_of (l : list Article) : list string :=
  flat_map
    (fun a => match a.(art_date) with
              | Some d => if truthy d then [d] else []
              | None => []
              end) l.

Definition date_range (l : list Article) : list string :=
  match dates_of l with
  | [] => []
  | d :: ds =>
      [ "First mention: " ++ take 10 (str_min d ds);
        "Latest mention: " ++ take 10 (str_max d ds) ]
  end.

Definition analyze_entry (article : Article) : list string :=
  [ "• " ++ article.(art_title);
    "  Date: " ++ take 10 (get article.(art_date) "Unknown");
    "" ].

Definition analyze_more (l : list Article) : list string :=
  if (5 <? List.length l)%nat
  then [ "... and " ++ str_nat (List.length l - 5) ++ " more articles" ]
  else [].

(** The text built from the sorted list. *)
Definition analyze_report (technology : string) (sorted : list Article) : string :=
  join nl
    ([ "📊 Analysis for '" ++ technology ++ "':" ++ nl;
       "Total articles: " ++ str_nat (List.length sorted) ]
     +++ date_range sorted
     +++ [ nl ++ "Articles mentioning '" ++ technology ++ "':" ++ nl ]
     +++ flat_map analyze_entry (firstn 5 sorted)
     +++ analyze_more sorted).

Definition analyze_tech_stack (technology : string) : string :=
  let unsorted := matching_articles technology in
  match unsorted with
  | [] => "No articles found mentioning '" ++ technology ++ "'."
  | _ :: _ => analyze_report technology (sort_by_date unsorted)
  end.

(** ** find_content_gaps *)

(** [{tech: len(articles) for tech, articles in tech_index_data.items()}] *)
Definition tech_counts : list (string * nat) :=
  map (fun item : string * list Article => (fst item, List.length (snd item)))
      tech_index_data.

(** [sorted(tech_counts.items(), key=lambda x: x[1])] *)
Definition sorted_tech : list (string * nat) :=
  sort_by (fun x y => (snd x <=? snd y)%nat) tech_counts.

(** [year_counts[year] = year_counts.get(year, 0) + 1] *)
Fixpoint count_year (year : Z) (year_counts : list (Z * nat)) : list (Z * nat) :=
  match year_counts with
  | [] => [(year, 1)]
  | (y, n) :: rest =>
      if (y =? year)%Z then (y, S n) :: rest else (y, n) :: count_year year rest
  end.

Definition year_counts : list (Z * nat) :=
  fold_left
    (fun counts article =>
       match given_int article.(art_year) with
       | Some year => count_year year counts
       | None => counts
       end)
    articles_manifest [].

Fixpoint year_count (counts : list (Z * nat)) (year : Z) : nat :=
  match counts with
  | [] => 0
  | (y, n) :: rest => if (y =? year)%Z then n else year_count rest year
  end.

Definition recent_cutoff : Z := 2023.

Definition recent_articles : list Article :=
  filter (fun a => (recent_cutoff <=? get a.(art_year) 0)%Z) articles_manifest.

(** The entries printed by the loop over [sorted_tech[:10]]. *)
Definition limited_coverage : list (string * nat) :=
  filter (fun item => (snd item <? 3)%nat) (firstn 10 sorted_tech).

Definition coverage_line (item : string * nat) : string :=
  "  • " ++ fst item ++ ": " ++ str_nat (snd item) ++ " article(s)".

Definition year_line (counts : list (Z * nat)) (year : Z) : string :=
  "  • " ++ str_int year ++ ": " ++ str_nat (year_count counts year) ++ " articles".

Definition find_content_gaps : string :=
  join nl
    ([ "📈 Content Gap Analysis" ++ nl;
       "Total articles: " ++ str_nat (List.length articles_manifest);
       "Articles since " ++ str_int recent_cutoff ++ ": "
         ++ str_nat (List.length recent_articles) ++ nl;
       "Technologies with limited coverage (< 3 articles):" ]
     +++ map coverage_line limited_coverage
     +++ [ nl ++ "📅 Publishing frequency by year:" ]
     +++ map (year_line year_counts) (sort_by Z.leb (map fst year_counts))
     +++ [ nl ++ "💡 Recommendations:";
          "  • Consider deep dives on underserved technologies";
          "  • Update older popular articles";
          "  • Combine technologies you know well but haven't written about together" ]).

(** ** get_full_article *)

Definition title_matches (article_title : string) : list Article :=
  filter (fun a => contains (lower article_title) (lower a.(art_title)))
         articles_manifest.

Definition render_article (article : Article) : string :=
  join nl
    ([ "Title: " ++ article.(art_title);
       "Date: " ++ get article.(art_date) "Unknown";
       "Tags: " ++ join ", " article.(art_tags);
       "Tech: " ++ join ", " article.(art_tech_stack);
       "Word count: " ++ str_int (get article.(art_word_count) 0%Z);
       nl ++ "--- Content ---" ++ nl;
       take 2000 (get article.(art_content) "") ]
     +++ (if (2000 <? len (get article.(art_content) ""))%nat
          then [ nl ++ "... (content truncated)" ]
          else [])).

Definition get_full_article (article_title : string) : string :=
  let matches := title_matches article_title in
  match matches with
  | [] => "No article found with title containing '" ++ article_title ++ "'"
  | [article] => render_article article
  | _ :: _ :: _ =>
      "Multiple matches found. Please be more specific:" ++ nl
      ++ join nl (map (fun a => "  • " ++ a.(art_title)) (firstn 5 matches))
  end.

End Catalog.

End Tools.

(* ================================================================== *)
(** * app/tools.py over a store of list objects *)
(* ================================================================== *)

(** The same five functions, written with the objects they work on: the
    catalog lists live in a store, a list the function builds is a new
    object, and [append], [extend] and [sort] change an object in place.
    The module-level names [articles_manifest], [tech_index_data] and
    [index] are fields of the store. *)

Module Imp.

Import Tools.

Definition loc : Type := nat.

Record Store : Type := {
  heap : list (list Article);              (* the list objects, by address *)
  articles_manifest : loc;
  tech_index_data : list (string * loc);   (* a dict of list objects *)
  index : bool                             (* is [index] set (not None) *)
}.

Definition with_heap (s : Store) (h : list (list Article)) : Store :=
  {| heap := h;
     articles_manifest := s.(articles_manifest);
     tech_index_data := s.(tech_index_data);
     index := s.(index) |}.

Definition with_index (s : Store) (b : bool) : Store :=
  {| heap := s.(heap);
     articles_manifest := s.(articles_manifest);
     tech_index_data := s.(tech_index_data);
     index := b |}.

(** The catalog a store holds. *)
Definition manifest_of (s : Store) : list Article :=
  nth s.(articles_manifest) s.(heap) [].

Definition tech_index_of (s : Store) : list (string * list Article) :=
  map (fun item : string * loc => (fst item, nth (snd item) s.(heap) []))
      s.(tech_index_data).

(** Every catalog name refers to an object of the store. *)
Definition well_formed (s : Store) : Prop :=
  s.(articles_manifest) < List.length s.(heap)
  /\ Forall (fun item : string * loc => snd item < List.length s.(heap))
            s.(tech_index_data).

(** [s'] holds every object of [s] as it was, under the same catalog names;
    it may hold new objects. *)
Definition extends (s s' : Store) : Prop :=
  (exists fresh, s'.(heap) = s.(heap) +++ fresh)
  /\ s'.(articles_manifest) = s.(articles_manifest)
  /\ s'.(tech_index_data) = s.(tech_index_data).

(** Stateful computations. *)
Definition St (A : Type) : Type := Store -> A * Store.

Definition ret {A} (a : A) : St A := fun s => (a, s).

Definition bind {A B} (m : St A) (f : A -> St B) : St B :=
  fun s => let (a, s') := m s in f a s'.

Local Notation "x <- m ;; k" := (bind m (fun x => k))
  (at level 61, m at next level, right associativity).
Local Notation "m ;;; k" := (bind m (fun _ => k))
  (at level 61, right associativity).

Fixpoint update {A} (i : nat) (v : A) (l : list A) : list A :=
  match l, i with
  | [], _ => []
  | _ :: l', 0 => v :: l'
  | x :: l', S i' => x :: update i' v l'
  end.

(** Reading and writing an object, and making a new one. *)
Definition deref (l : loc) : St (list Article) :=
  fun s => (nth l s.(heap) [], s).

Definition assign (l : loc) (v : list Article) : St unit :=
  fun s => (tt, with_heap s (update l v s.(heap))).

Definition new_list (v : list Article) : St loc :=
  fun s => (List.length s.(heap), with_heap s (s.(heap) +++ [v])).

(** [l.append(x)], [l.extend(src)], [l.sort(...)] *)
Definition list_append (l : loc) (x : Article) : St unit :=
  v <- deref l ;; assign l (v +++ [x]).

Definition list_extend (l src : loc) : St unit :=
  v <- deref l ;; w <- deref src ;; assign l (v +++ w).

Definition list_sort (l : loc) (le : Article -> Article -> bool) : St unit :=
  v <- deref l ;; assign l (sort_by le v).

Definition global_articles_manifest : St loc :=
  fun s => (s.(articles_manifest), s).

Definition global_tech_index_data : St (list (string * loc)) :=
  fun s => (s.(tech_index_data), s).

Fixpoint for_each {A} (xs : list A) (body : A -> St unit) : St unit :=
  match xs with
  | [] => ret tt
  | x :: xs' => body x ;;; for_each xs' body
  end.

Fixpoint map_each {A B} (xs : list A) (f : A -> St B) : St (list B) :=
  match xs with
  | [] => ret []
  | x :: xs' => y <- f x ;; ys <- map_each xs' f ;; ret (y :: ys)
  end.

(** [tech_index_data.items()] with every list read. *)
Definition read_tech_index : St (list (string * list Article)) :=
  items <- global_tech_index_data ;;
  map_each items
    (fun item : string * loc => v <- deref (snd item) ;; ret (fst item, v)).

Section Service.

(** [config.get_llamacloud_index()], and
    [index.as_retriever(similarity_top_k=top_k).retrieve(query)]. *)
Variable get_llamacloud_index : outcome unit.
Variable retrieve : string -> Z -> outcome (list SearchResult).

(** [get_index]: sets the global [index] the first time it succeeds. *)
Definition get_index : St (outcome unit) :=
  fun s =>
    if s.(index) then (Returned tt, s)
    else match get_llamacloud_index with
         | Returned _ => (Returned tt, with_index s true)
         | Raised e => (Raised e, s)
         end.

Definition search_articles (query : string) (top_k : Z) : St (outcome string) :=
  client <- get_index ;;
  ret (search_report
         match client with
         | Returned _ => retrieve query top_k
         | Raised e => Raised e
         end).

End Service.

Section Functions.

(** [str.lower] *)
Variable lower : string -> string.

Definition filter_by_metadata (tech : option string) (year : option Z)
    (tag : option string) : St string :=
  matches <- new_list [] ;;
  manifest <- global_articles_manifest ;;
  articles <- deref manifest ;;
  for_each articles
    (fun article =>
       if selected lower tech year tag article
       then list_append matches article
       else ret tt) ;;;
  found <- deref matches ;;
  match found with
  | [] => ret (filter_report tech found)
  | _ :: _ =>
      shown <- new_list (firstn 10 found) ;;    (* matches[:10] *)
      ret (filter_report tech found)
  end.

Definition analyze_tech_stack (technology : string) : St string :=
  matching_articles <- new_list [] ;;
  items <- global_tech_index_data ;;
  for_each items
    (fun item : string * loc =>
       let (tech, article_list) := item in
       if contains (lower technology) (lower tech)
       then list_extend matching_articles article_list
       else ret tt) ;;;
  unsorted <- deref matching_articles ;;
  match unsorted with
  | [] => ret ("No articles found mentioning '" ++ technology ++ "'.")
  | _ :: _ =>
      list_sort matching_articles
        (fun x y => String.leb (date_key y) (date_key x)) ;;;
      sorted <- deref matching_articles ;;
      shown <- new_list (firstn 5 sorted) ;;    (* matching_articles[:5] *)
      ret (analyze_report technology sorted)
  end.

Definition find_content_gaps : St string :=
  tech_index <- read_tech_index ;;
  manifest <- global_articles_manifest ;;
  articles <- deref manifest ;;
  recent <- new_list (recent_articles articles) ;;
  ret (Tools.find_content_gaps articles tech_index).

Definition get_full_article (article_title : string) : St string :=
  manifest <- global_articles_manifest ;;
  articles <- deref manifest ;;
  matches <- new_list (title_matches lower articles article_title) ;;
  found <- deref matches ;;
  match found with
  | _ :: _ :: _ =>
      shown <- new_list (firstn 5 found) ;;     (* matches[:5] *)
      ret (Tools.get_full_article lower articles article_title)
  | _ => ret (Tools.get_full_article lower articles article_title)
  end.

End Functions.

End Imp.

(* ================================================================== *)
(** * app/workflows.py *)
(* ================================================================== *)

Module Workflows.

Import Tools.

(** A call of a tool of [app/tools.py], recorded when a handler makes it. *)
Inductive Call : Type :=
| Call_search_articles (query : string) (top_k : Z)
| Call_filter_by_metadata (tech : option string) (year : option Z) (tag : option string)
| Call_analyze_tech_stack (technology : string)
| Call_find_content_gaps.

(** A run of a handler: the calls made so far, and a value or the exception
    that stopped it. *)
Definition Run (A : Type) : Type := (list Call * outcome A)%type.

Definition ret {A} (a : A) : Run A := ([], Returned a).

Definition bind {A B} (m : Run A) (f : A -> Run B) : Run B :=
  match m with
  | (calls, Returned a) => let (calls', r) := f a in (calls +++ calls', r)
  | (calls, Raised e) => (calls, Raised e)
  end.

Notation "x <- m ;; k" := (bind m (fun x => k))
  (at level 61, m at next level, right associativity).

(** [for x in xs: acc = body(acc, x)] *)
Fixpoint for_each {A B} (xs : list A) (body : B -> A -> Run B) (acc : B) : Run B :=
  match xs with
  | [] => ret acc
  | x :: xs' => acc' <- body acc x ;; for_each xs' body acc'
  end.

Definition calls_of {A} (r : Run A) : list Call := fst r.
Definition result_of {A} (r : Run A) : outcome A := snd r.

Section Handlers.

(** [str.lower] *)
Variable lower : string -> string.

Variable articles_manifest : list Article.
Variable tech_index_data : list (string * list Article).
Variable retrieve : string -> Z -> outcome (list SearchResult).

Definition call_search_articles (query : string) (top_k : Z) : Run string :=
  ([Call_search_articles query top_k], search_articles retrieve query top_k).

Definition call_filter_by_metadata (tech : option string) (year : option Z)
    (tag : option string) : Run string :=
  ([Call_filter_by_metadata tech year tag],
   Returned (filter_by_metadata lower articles_manifest tech year tag)).

Definition call_analyze_tech_stack (technology : string) : Run string :=
  ([Call_analyze_tech_stack technology],
   Returned (analyze_tech_stack lower tech_index_data technology)).

Definition call_find_content_gaps : Run string :=
  ([Call_find_content_gaps],
   Returned (find_content_gaps articles_manifest tech_index_data)).

(** ** DiscoveryWorkflow.discover_articles *)

Definition tech_keywords : list string :=
  ["python"; "ai"; "claude"; "openai"; "llamaindex"; "react"; "docker"].

Definition mentioned_tech (query : string) : list string :=
  filter (fun tech => contains (lower tech) (lower query)) tech_keywords.

Definition discovery_menu : list string :=
  [ "I couldn't find specific matches for your query. Here are some ways I can help:";
    "• Ask about specific technologies (Python, AI, LlamaIndex, etc.)";
    "• Request articles from specific years";
    "• Search for topics like 'patent filing', 'AI workflows', or 'productivity'" ].

Definition discovery_note : string :=
  nl ++ "📚 **Note:** I provide article summaries and teasers to help you discover interesting content. For full articles, visit the original Medium posts.".

(** The part of the result that reports the search. *)
Definition search_part (search_results : string) : list string :=
  if negb (contains "No relevant articles found" search_results)
  then [ "🔍 **Search Results:**"; search_results ]
  else [].

(** One round of the loop over [mentioned_tech[:2]]. *)
Definition coverage_step (result_parts : list string) (tech : string)
  : Run (list string) :=
  tech_analysis <- call_analyze_tech_stack tech ;;
  ret (if negb (contains "No articles found" tech_analysis)
       then result_parts
            +++ [ nl ++ "🔧 **" ++ title tech ++ " Coverage:**"; tech_analysis ]
       else result_parts).

Definition discover_articles (query : string) : Run string :=
  if negb (truthy query) then
    ret "Please provide a question about the articles."
  else
    search_results <- call_search_articles query 3 ;;
    result_parts <- for_each (firstn 2 (mentioned_tech query)) coverage_step
                      (search_part search_results) ;;
    let result_parts :=
      match result_parts with
      | [] => discovery_menu
      | _ :: _ => result_parts
      end in
    ret (join nl (result_parts +++ [ discovery_note ])).

(** ** AnalyticsWorkflow.analyze_content *)

Definition mentions (words : list string) (query : string) : bool :=
  any (fun word => contains word (lower query)) words.

Definition gap_words : list string :=
  ["gap"; "opportunity"; "missing"; "underserved"].
Definition article_words : list string :=
  ["article"; "content"; "full"; "detail"].
Definition pattern_words : list string :=
  ["pattern"; "performance"; "trend"; "frequency"].
Definition focus_words : list string :=
  ["technology"; "tech"; "focus"; "expertise"].
Definition strategy_words : list string :=
  ["strategy"; "next"; "recommend"; "suggest"; "improve"].

Definition analytics_header : string :=
  "📊 **Content Analytics Dashboard**" ++ nl.

Definition analytics_footer : string :=
  nl ++ "🔒 **Private Mode:** Full analytics access with detailed content insights and strategic recommendations.".

Definition focus_step (result_parts : list string) (tech : string)
  : Run (list string) :=
  tech_analysis <- call_analyze_tech_stack tech ;;
  ret (if negb (contains "No articles found" tech_analysis)
       then result_parts +++ [ nl ++ "**" ++ tech ++ ":**"; tech_analysis ]
       else result_parts).

Definition analyze_content (query : string) : Run string :=
  if negb (truthy query) then
    ret "Please specify what type of analysis you'd like: content gaps, writing patterns, article performance, or strategy recommendations."
  else
    let result_parts := [ analytics_header ] in
    result_parts <-
      (if mentions gap_words query then
         gaps_analysis <- call_find_content_gaps ;;
         ret (result_parts +++ [ "**Content Gap Analysis:**"; gaps_analysis ])
       else if mentions article_words query then
         search_results <- call_search_articles query 5 ;;
         ret (result_parts
              +++ [ "**Article Search Results:**"; search_results;
                    nl ++ "💡 **Tip:** To get full article content, ask for a specific article title." ])
       else if mentions pattern_words query then
         frequency_analysis <- call_filter_by_metadata None None None ;;
         gaps <- call_find_content_gaps ;;
         ret (result_parts
              +++ [ "**Writing Patterns Analysis:**"; take 1000 frequency_analysis;
                    nl ++ "**Strategic Recommendations:**"; gaps ])
       else if mentions focus_words query then
         for_each ["AI"; "Claude"; "Python"; "LlamaIndex"; "OpenAI"] focus_step
           (result_parts +++ [ "**Technology Focus Analysis:**" ])
       else if mentions strategy_words query then
         gaps_analysis <- call_find_content_gaps ;;
         ret (result_parts
              +++ [ "**Content Strategy Recommendations:**"; gaps_analysis;
                    nl ++ "**Additional Strategic Insights:**";
                    "• Consider creating series on AI workflow automation";
                    "• Expand Python + AI integration tutorials";
                    "• Document more real-world AI implementation case studies";
                    "• Create beginner-friendly guides for identified technologies" ])
       else
         gaps <- call_find_content_gaps ;;
         search_results <- call_search_articles query 3 ;;
         ret (result_parts
              +++ [ "**Comprehensive Content Overview:**"; gaps;
                    nl ++ "**Query-Specific Results:**"; search_results ])) ;;
    ret (join nl (result_parts +++ [ analytics_footer ])).

(** ** TechExplorerWorkflow.explore_tech *)

Definition overview_words : list string :=
  ["technology"; "tech"; "stack"; "expertise"].
Definition explorer_techs : list string :=
  ["python"; "ai"; "claude"; "openai"; "llamaindex"].
Definition timeline_words : list string :=
  ["evolution"; "timeline"; "history"; "over time"].

Definition explorer_header : string :=
  "🔬 **Technical Expertise Analysis**" ++ nl.

Definition explorer_footer : string :=
  nl ++ "💡 **Technical Profile:** Demonstrated expertise in AI technologies, automation tools, patent filing systems, and productivity workflows. Active exploration of cutting-edge AI platforms and their practical applications.".

(** One round of the loop over [other_techs]. *)
Definition expertise_step (result_parts : list string) (tech : string)
  : Run (list string) :=
  tech_analysis <- call_analyze_tech_stack tech ;;
  ret (if negb (contains "No articles found" tech_analysis)
       then result_parts +++ [ nl ++ "**" ++ tech ++ " Expertise:**"; tech_analysis ]
       else result_parts).

(** The loop that stops ([break]) at the first technology found in the
    query. *)
Fixpoint first_expertise (techs : list string) (query : string)
    (result_parts : list string) : Run (list string) :=
  match techs with
  | [] => ret result_parts
  | tech :: rest =>
      if contains tech (lower query) then
        tech_analysis <- call_analyze_tech_stack tech ;;
        ret (result_parts
             +++ [ "**" ++ title tech ++ " Expertise:**"; tech_analysis ])
      else first_expertise rest query result_parts
  end.

(** One round of the loop over the years. *)
Definition year_step (result_parts : list string) (year : Z)
  : Run (list string) :=
  year_articles <- call_filter_by_metadata None (Some year) None ;;
  ret (if negb (contains "No articles found" year_articles)
       then result_parts
            +++ [ nl ++ "**" ++ str_int year ++ ":**";
                  if (500 <? len year_articles)%nat
                  then take 500 year_articles ++ "..."
                  else year_articles ]
       else result_parts).

Definition explore_tech (query : string) : Run string :=
  if negb (truthy query) then
    ret "Please ask about specific technologies or technical expertise."
  else
    let result_parts := [ explorer_header ] in
    result_parts <-
      (if mentions overview_words query then
         tech_summary <- call_analyze_tech_stack "AI" ;;
         for_each ["Python"; "LlamaIndex"; "Claude"; "OpenAI"] expertise_step
           (result_parts
            +++ [ "**Primary Focus - AI Technologies:**"; tech_summary ])
       else if mentions explorer_techs query then
         first_expertise explorer_techs query result_parts
       else if mentions timeline_words query then
         for_each [2023; 2024; 2025]%Z year_step
           (result_parts +++ [ "**Technology Evolution Timeline:**" ])
       else
         search_results <- call_search_articles query 3 ;;
         ret (result_parts
              +++ [ "**Relevant Technical Content:**"; search_results ])) ;;
    ret (join nl (result_parts +++ [ explorer_footer ])).

End Handlers.

End Workflows.

(* ================================================================== *)
(** * simple_api.py *)
(* ================================================================== *)

Module SimpleApi.

(** [class QueryRequest(BaseModel)] *)
Record QueryRequest : Type := {
  query : string;
  mode : string
}.

(** The request model built from a JSON body [{query, mode}]: a body
    without the key [mode] takes the declared default. *)
Definition request_of_body (query : string) (mode : option string) : QueryRequest :=
  {| query := query; mode := Tools.get mode "discovery" |}.

(** What the handler returns: [{response, mode, status: "success"}] or
    [{error, status: "error"}]. *)
Inductive ChatResponse : Type :=
| Success (response mode : string)
| Error (error : string).

Definition status (r : ChatResponse) : string :=
  match r with
  | Success _ _ => "success"
  | Error _ => "error"
  end.

Definition discovery_prefix : string :=
  "You are a discovery agent. Provide brief summaries and teasers about articles. Query: ".
Definition tech_explorer_prefix : string :=
  "You are a tech explorer. Analyze technical expertise and technology patterns. Query: ".
Definition analytics_prefix : string :=
  "You are an analytics agent. Provide detailed content analysis and strategy recommendations. Query: ".

(** The mode-specific system prompt. *)
Definition prompt (request : QueryRequest) : string :=
  if String.eqb request.(mode) "discovery" then
    discovery_prefix ++ request.(query)
  else if String.eqb request.(mode) "tech-explorer" then
    tech_explorer_prefix ++ request.(query)
  else if String.eqb request.(mode) "analytics" then
    analytics_prefix ++ request.(query)
  else request.(query).

Section Endpoint.

(** [str(index.as_query_engine().query(prompt))], the external call of the
    [try] block. *)
Variable query_index : string -> outcome string.

Definition chat (request : QueryRequest) : ChatResponse :=
  match query_index (prompt request) with
  | Returned response => Success response request.(mode)
  | Raised e => Error e
  end.

End Endpoint.

End SimpleApi.

(* ================================================================== *)
(** * Catalogs and predicates used in the statements *)
(* ================================================================== *)

Module Samples.

Import Tools.

(** [x] is listed before [y] when [y]'s date is not later than [x]'s. *)
Definition newer_or_same (x y : Article) : Prop :=
  String.leb (date_key y) (date_key x) = true.

(** Do the articles without a date come first. *)
Definition undated_first (l : list Article) : bool :=
  all_before (fun a => negb (has_date a)) l.

Definition article (title : string) (date : option string) : Article :=
  {| art_title := title; art_date := date; art_year := None;
     art_tags := []; art_tech_stack := []; art_word_count := None;
     art_content := None |}.

(** One technology, with an undated article before a dated one. *)
Definition docker_index : list (string * list Article) :=
  [ ("Docker",
     [ article "Containers at home" None;
       article "Docker for Python" (Some "2024-01-01") ]) ].

(** Eleven technologies with one article each. *)
Definition eleven_technologies : list (string * list Article) :=
  map (fun tech => (tech, [ article "Notes" None ]))
      ["T01"; "T02"; "T03"; "T04"; "T05"; "T06";
       "T07"; "T08"; "T09"; "T10"; "T11"].

(** The index of the specification's example, written with the counts
    A:1, B:2, B:3, C:5: a mapping holds a key once, with the value given
    last, so that B has 3 articles. *)
Definition sample_index : list (string * list Article) :=
  [ ("A", repeat (article "Notes" None) 1);
    ("B", repeat (article "Notes" None) 3);
    ("C", repeat (article "Notes" None) 5) ].


(** A retrieval service that is down. *)
Definition unavailable (reason : string)
  : string -> Z -> outcome (list SearchResult) :=
  fun _ _ => Raised reason.

(** A store with a manifest of two articles and an index of one technology
    whose list is an object of its own. *)
Definition sample_store : Imp.Store :=
  {| Imp.heap :=
       [ [ article "Docker for Python" (Some "2024-01-01");
           article "Containers at home" None ];
         [ article "Containers at home" None;
           article "Docker for Python" (Some "2024-01-01") ] ];
     Imp.articles_manifest := 0;
     Imp.tech_index_data := [ ("Docker", 1) ];
     Imp.index := false |}.

(** An article with a short content. *)
Definition short_article : Article :=
  {| art_title := "Docker for Python"; art_date := None; art_year := None;
     art_tags := []; art_tech_stack := []; art_word_count := None;
     art_content := Some "Short text." |}.

End Samples.

(* ================================================================== *)
(** * Properties *)
(* ================================================================== *)

Import Tools Samples.

(** ** Strings *)

Section StringFacts.

Lemma append_assoc (a b c : string) : (a ++ b) ++ c = a ++ (b ++ c).
Proof. induction a as [|x a IH]; simpl; [reflexivity | now rewrite IH]. Qed.

Lemma append_empty_r (a : string) : a ++ "" = a.
Proof. induction a as [|x a IH]; simpl; [reflexivity | now rewrite IH]. Qed.

Lemma prefix_empty (s : string) : String.prefix "" s = true.
Proof. destruct s; reflexivity. Qed.

Lemma prefix_app (n t : string) : String.prefix n (n ++ t) = true.
Proof.
  induction n as [|c n IH]; simpl.
  - apply prefix_empty.
  - destruct (ascii_dec c c) as [_|ne]; [exact IH | now destruct ne].
Qed.

Lemma prefix_split (n s : string) :
  String.prefix n s = true -> exists t, s = n ++ t.
Proof.
  revert s; induction n as [|c n IH]; intros s H.
  - now exists s.
  - destruct s as [|d s]; simpl in H; [discriminate|].
    destruct (ascii_dec c d) as [->|]; [|discriminate].
    destruct (IH _ H) as [t ->]. now exists t.
Qed.

(** [needle in hay] holds exactly when [hay] is [a ++ needle ++ b]. *)
Lemma contains_unfold (n s : string) :
  contains n s
  = String.prefix n s
    || match s with "" => false | String _ s' => contains n s' end.
Proof. destruct s; reflexivity. Qed.

Lemma contains_prefix (n s : string) :
  String.prefix n s = true -> contains n s = true.
Proof. intros H. rewrite contains_unfold, H. reflexivity. Qed.


Lemma contains_elim (n s : string) :
  contains n s = true -> exists a b, s = a ++ n ++ b.
Proof.
  induction s as [|c s IH]; rewrite contains_unfold; intros H;
    apply orb_true_iff in H as [H|H].
  - destruct (prefix_split _ _ H) as [t ->]. now exists "", t.
  - discriminate.
  - destruct (prefix_split _ _ H) as [t ->]. now exists "", t.
  - destruct (IH H) as (a & b & ->). now exists (String c a), b.
Qed.

Lemma contains_empty (s : string) : contains "" s = true.
Proof. destruct s; reflexivity. Qed.

Lemma contains_nonempty (n s : string) :
  truthy n = true -> contains n s = true -> truthy s = true.
Proof.
  destruct s; [|reflexivity]. destruct n; [discriminate|]. simpl. discriminate.
Qed.

(** [str.lower] of the empty string is the empty string. *)
Lemma lower_empty (lower : string -> string) :
  lowers_ascii lower -> lower "" = "".
Proof. intros H. now rewrite H. Qed.

Lemma ascii_lower_lowers : lowers_ascii ascii_lower.
Proof. intros s _. reflexivity. Qed.

(** A needle without the character [c] cannot straddle an occurrence of [c]. *)
Lemma prefix_before_char (n x y : string) (c : ascii) :
  has_char c n = false ->
  String.prefix n (x ++ String c y) = String.prefix n x.
Proof.
  revert n; induction x as [|d x IH]; intros n Hc.
  - destruct n as [|a n]; [reflexivity|]. simpl in *.
    apply orb_false_iff in Hc as [Ha _].
    destruct (ascii_dec a c) as [->|]; [|reflexivity].
    now rewrite Ascii.eqb_refl in Ha.
  - destruct n as [|a n]; [reflexivity|]. simpl in *.
    apply orb_false_iff in Hc as [_ Hn].
    destruct (ascii_dec a d); [now apply IH | reflexivity].
Qed.

Lemma contains_around_char (n x y : string) (c : ascii) :
  has_char c n = false ->
  contains n (x ++ String c y) = contains n x || contains n y.
Proof.
  intros Hc. induction x as [|d x IH].
  - pose proof (prefix_before_char n "" y c Hc) as E.
    change ("" ++ String c y) with (String c y) in *.
    rewrite (contains_unfold n (String c y)), (contains_unfold n ""), E.
    now rewrite orb_false_r.
  - pose proof (prefix_before_char n (String d x) y c Hc) as E.
    change (String d x ++ String c y) with (String d (x ++ String c y)) in *.
    rewrite (contains_unfold n (String d (x ++ String c y))),
            (contains_unfold n (String d x)), E, IH.
    now rewrite orb_assoc.
Qed.

(** [s[:n]] is a prefix of [s] with [n] code points, or all of [s]. *)
Lemma take_prefix (n : nat) (s : string) : exists rest, s = take n s ++ rest.
Proof.
  revert n; induction s as [|c s IH]; intros n; simpl.
  - now exists "".
  - destruct (is_continuation c).
    + destruct (IH n) as [rest E]. exists rest. simpl. now rewrite <- E.
    + destruct n as [|n].
      * now exists (String c s).
      * destruct (IH n) as [rest E]. exists rest. simpl. now rewrite <- E.
Qed.

Lemma len_take (n : nat) (s : string) : len (take n s) = Nat.min n (len s).
Proof.
  revert n; induction s as [|c s IH]; intros n; simpl.
  - now rewrite Nat.min_0_r.
  - destruct (is_continuation c) eqn:E; simpl.
    + now rewrite E, IH.
    + destruct n as [|n]; [reflexivity|]. simpl. now rewrite E, IH.
Qed.

Example lower_example :
  ascii_lower "Tell me about Python and Docker projects"
  = "tell me about python and docker projects"
  /\ is_ascii "Tell me about Python and Docker projects" = true
  /\ is_ascii "Aİ" = false.
Proof. repeat split. Qed.

Example title_example : map title ["python"; "openai"; "AI"] = ["Python"; "Openai"; "Ai"].
Proof. reflexivity. Qed.

Example contains_example :
  contains "ai" "openai" = true /\ contains "" "" = true
  /\ contains "docker" "python" = false.
Proof. repeat split. Qed.

Example take_example :
  len "📊 ok" = 4 /\ take 2 "📊 ok" = "📊 " /\ take 10 "2024-05-01T10:00:00" = "2024-05-01".
Proof. repeat split. Qed.

End StringFacts.

(** ** The stable sort *)

Section SortFacts.

Context {A : Type} (le : A -> A -> bool).

Let R (x y : A) : Prop := le x y = true.

Lemma insert_by_perm (x : A) (l : list A) :
  Permutation (insert_by le x l) (x :: l).
Proof.
  induction l as [|y l IH]; simpl; [reflexivity|].
  destruct (le x y); [reflexivity|].
  rewrite IH. apply perm_swap.
Qed.

Lemma sort_by_perm (l : list A) : Permutation (sort_by le l) l.
Proof.
  induction l as [|x l IH]; simpl; [reflexivity|].
  unfold sort_by in IH. rewrite insert_by_perm. now constructor.
Qed.

Lemma sort_by_length (l : list A) : List.length (sort_by le l) = List.length l.
Proof. apply Permutation_length, sort_by_perm. Qed.

Lemma sort_by_nil (l : list A) : sort_by le l = [] -> l = [].
Proof.
  intros H. apply length_zero_iff_nil. rewrite <- sort_by_length, H. reflexivity.
Qed.

(** Stability: a class of elements that [le] does not tell apart keeps its
    order. *)
Lemma insert_by_stable (p : A -> bool) (x : A) (l : list A) :
  (forall y, p x = true -> p y = true -> le x y = true) ->
  filter p (insert_by le x l) = filter p (x :: l).
Proof.
  intros Hp. induction l as [|y l IH]; [reflexivity|].
  simpl insert_by. destruct (le x y) eqn:E; [reflexivity|].
  simpl in *. rewrite IH.
  destruct (p x) eqn:Px; [|reflexivity].
  destruct (p y) eqn:Py; [|reflexivity].
  rewrite (Hp y eq_refl Py) in E. discriminate.
Qed.

Lemma sort_by_stable (p : A -> bool) (l : list A) :
  (forall x y, p x = true -> p y = true -> le x y = true) ->
  filter p (sort_by le l) = filter p l.
Proof.
  intros Hp. induction l as [|x l IH]; [reflexivity|].
  change (sort_by le (x :: l)) with (insert_by le x (sort_by le l)).
  rewrite insert_by_stable by (intros y; apply Hp).
  simpl. now rewrite IH.
Qed.

Hypothesis le_total : forall x y, le x y = true \/ le y x = true.

Lemma insert_by_hd (x a : A) (l : list A) :
  R a x -> HdRel R a l -> HdRel R a (insert_by le x l).
Proof.
  intros Hax Hl. destruct l as [|y l]; simpl.
  - now constructor.
  - destruct (le x y); constructor; [assumption | now inversion Hl].
Qed.

Lemma insert_by_sorted (x : A) (l : list A) :
  Sorted R l -> Sorted R (insert_by le x l).
Proof.
  induction 1 as [|y l Hs IH Hh]; simpl.
  - repeat constructor.
  - destruct (le x y) eqn:E.
    + constructor; [now constructor | now constructor].
    + constructor; [exact IH|].
      apply insert_by_hd; [|exact Hh].
      unfold R. destruct (le_total x y) as [H|H]; [congruence | exact H].
Qed.

Lemma sort_by_sorted (l : list A) : Sorted R (sort_by le l).
Proof.
  induction l as [|x l IH]; simpl; [constructor|].
  now apply insert_by_sorted.
Qed.

Hypothesis le_trans : forall x y z, le x y = true -> le y z = true -> le x z = true.

Lemma sort_by_strongly_sorted (l : list A) : StronglySorted R (sort_by le l).
Proof.
  apply Sorted_StronglySorted; [|apply sort_by_sorted].
  intros x y z. apply le_trans.
Qed.

End SortFacts.

Lemma filter_none {A} (p : A -> bool) (l : list A) :
  (forall y, In y l -> p y = false) -> filter p l = [].
Proof.
  induction l as [|y l IH]; intros H; [reflexivity|]. simpl.
  rewrite (H y (or_introl eq_refl)). apply IH. intros z Hz. apply H. now right.
Qed.

Lemma In_firstn {A} (n : nat) (l : list A) (x : A) :
  In x (firstn n l) -> In x l.
Proof.
  revert l; induction n as [|n IH]; intros [|y l] H; simpl in *; try tauto.
  destruct H as [H|H]; [now left | right; now apply IH].
Qed.

(** In a sorted list the elements of a downward-closed class come first,
    so the class commutes with taking a prefix. *)
Lemma filter_firstn_sorted {A} (R : A -> A -> Prop) (p : A -> bool)
    (l : list A) (n : nat) :
  (forall x y, R x y -> p y = true -> p x = true) ->
  StronglySorted R l ->
  filter p (firstn n l) = firstn n (filter p l).
Proof.
  intros Hp Hs. revert n. induction Hs as [|x l Hs IH Hx]; intros n.
  - now rewrite !firstn_nil.
  - destruct n as [|n]; [reflexivity|]. simpl.
    destruct (p x) eqn:Px.
    + simpl. now rewrite IH.
    + assert (Hnone : forall y, In y l -> p y = false).
      { intros y Hy. rewrite Forall_forall in Hx.
        destruct (p y) eqn:Py; [|reflexivity].
        rewrite (Hp x y (Hx y Hy) Py) in Px. discriminate. }
      rewrite (filter_none p l Hnone). simpl.
      apply filter_none. intros y Hy. apply Hnone. now apply In_firstn in Hy.
Qed.

Example sort_by_example :
  sort_by (fun x y => (snd x <=? snd y)%nat)
          [("a", 3); ("b", 1); ("c", 3); ("d", 1); ("e", 2)]
  = [("b", 1); ("d", 1); ("e", 2); ("a", 3); ("c", 3)]
  /\ sort_by (fun x y => (snd y <=? snd x)%nat)
             [("a", 3); ("b", 1); ("c", 3); ("d", 1); ("e", 2)]
     = [("a", 3); ("c", 3); ("e", 2); ("b", 1); ("d", 1)].
Proof. split; reflexivity. Qed.

(** ** The order on strings *)

Lemma string_compare_as_OT (a b : string) :
  String.compare a b = String_as_OT.compare a b.
Proof.
  revert b; induction a as [|x a IH]; intros [|y b]; simpl; try reflexivity.
Qed.

Lemma string_leb_iff (a b : string) :
  String.leb a b = true <-> a = b \/ String_as_OT.lt a b.
Proof.
  unfold String.leb, String_as_OT.lt. rewrite string_compare_as_OT.
  destruct (String_as_OT.compare_spec a b) as [E|L|G]; split; intros H;
    try (now left); try (now right); try discriminate; try reflexivity.
  destruct H as [->|H].
  - now apply (StrictOrder_Irreflexive b) in G.
  - exfalso. apply (StrictOrder_Irreflexive a).
    now apply (StrictOrder_Transitive a b a).
Qed.

Lemma string_leb_trans (a b c : string) :
  String.leb a b = true -> String.leb b c = true -> String.leb a c = true.
Proof.
  rewrite !string_leb_iff. intros [->|H1] [->|H2]; auto.
  right. now apply (StrictOrder_Transitive a b c).
Qed.

Lemma string_leb_empty (a : string) : String.leb "" a = true.
Proof. now destruct a. Qed.

Lemma string_leb_empty_inv (a : string) : String.leb a "" = true -> a = "".
Proof. now destruct a. Qed.

(** ** Formatting a score *)








(** The doubles nearest to 0.85, 0.125, 0.375, 2.675 and -0.001. *)
Example format_2f_examples :
  map format_2f
    [ S754_finite false 7656119366529843 (-53);
      S754_finite false 4503599627370496 (-55);
      S754_finite false 6755399441055744 (-54);
      S754_finite false 6023564501608038 (-51);
      S754_finite true 4611686018427388 (-62);
      S754_zero false ]
  = [ "0.85"; "0.12"; "0.38"; "2.67"; "-0.00"; "0.00" ].
Proof. vm_compute. reflexivity. Qed.

(** ** search_articles *)

Lemma dict_get_find (d : list (string * string)) (k default : string) :
  dict_get d k default
  = match find (fun kv : string * string => String.eqb (fst kv) k) d with
    | Some kv => snd kv
    | None => default
    end.
Proof.
  induction d as [|[k' v] d IH]; [reflexivity|].
  cbn [dict_get find fst]. destruct (String.eqb k' k); [reflexivity | exact IH].
Qed.

Lemma format_result_scored (i : nat) (result : SearchResult) :
  result.(score) <> None ->
  format_result i result
  = Returned
      [ "Result " ++ str_nat i ++ ":";
        "Title: "
        ++ match find (fun kv : string * string => String.eqb (fst kv) "title")
                      match result.(metadata) with Some d => d | None => [] end
           with
           | Some kv => snd kv
           | None => "Unknown"
           end;
        "Relevance: "
        ++ match result.(score) with Some x => format_2f x | None => "" end;
        "Excerpt: " ++ take 300 result.(text) ++ "...";
        "---" ].
Proof.
  intros Hs. unfold format_result.
  destruct (score result) as [x|]; [|now destruct Hs].
  rewrite dict_get_find.
  destruct (metadata result) as [[|kv d]|]; reflexivity.
Qed.

(** With a score in every result the loop writes them all, numbered from
    its start index. *)
Lemma format_results_scored (results : list SearchResult) (i : nat) :
  Forall (fun result => result.(score) <> None) results ->
  format_results i results
  = Returned
      (List.concat
         (map (fun ir : nat * SearchResult =>
                 let (i, result) := ir in
                 [ "Result " ++ str_nat i ++ ":";
                   "Title: "
                   ++ match find (fun kv : string * string => String.eqb (fst kv) "title")
                                 match result.(metadata) with Some d => d | None => [] end
                      with
                      | Some kv => snd kv
                      | None => "Unknown"
                      end;
                   "Relevance: "
                   ++ match result.(score) with Some x => format_2f x | None => "" end;
                   "Excerpt: " ++ take 300 result.(text) ++ "...";
                   "---" ])
              (combine (seq i (List.length results)) results))).
Proof.
  intros H. revert i; induction H as [|x l Hx Hl IH]; intros i; [reflexivity|].
  cbn [format_results List.length seq combine map List.concat fst snd].
  now rewrite (format_result_scored i x Hx), IH.
Qed.

(** A result without a score makes the loop raise. *)
Lemma format_results_unscored (results : list SearchResult) (i : nat) :
  Exists (fun result => result.(score) = None) results ->
  format_results i results = Raised format_none.
Proof.
  intros H. revert i; induction H as [x l Hx|x l Hl IH]; intros i;
    cbn [format_results]; unfold format_result.
  - now rewrite Hx.
  - destruct (score x); [|reflexivity]. now rewrite IH.
Qed.

(** Every result has a score, or one has none. *)
Lemma scored_or_not (results : list SearchResult) :
  Forall (fun result => result.(score) <> None) results
  \/ Exists (fun result => result.(score) = None) results.
Proof.
  induction results as [|x l [IH|IH]].
  - left. constructor.
  - destruct (score x) as [v|] eqn:E.
    + left. constructor; [now rewrite E | exact IH].
    + right. now constructor.
  - right. now constructor 2.
Qed.

(** What [search_articles] does when every result retrieved has a score. *)
Lemma search_report_scored (retrieved : outcome (list SearchResult)) :
  (forall results, retrieved = Returned results ->
                   Forall (fun result => result.(score) <> None) results) ->
  exists answer, search_report retrieved = Returned answer.
Proof.
  intros H. unfold search_report.
  destruct retrieved as [[|r rs]|e]; try (eexists; reflexivity).
  rewrite (format_results_scored (r :: rs) 1 (H _ eq_refl)).
  eexists; reflexivity.
Qed.

(** What [search_articles] does when a result retrieved has no score. *)
Lemma search_report_unscored (results : list SearchResult) :
  Exists (fun result => result.(score) = None) results ->
  search_report (Returned results) = Raised format_none.
Proof.
  intros H. unfold search_report.
  destruct results as [|r rs]; [inversion H|].
  now rewrite (format_results_unscored (r :: rs) 1 H).
Qed.

(** [search_report] raises only [format_none]. *)
Lemma search_report_raises (retrieved : outcome (list SearchResult)) (e : string) :
  search_report retrieved = Raised e ->
  e = format_none
  /\ exists results, retrieved = Returned results
       /\ Exists (fun result => result.(score) = None) results.
Proof.
  destruct retrieved as [results|e']; [|discriminate].
  destruct (scored_or_not results) as [H|H].
  - destruct (search_report_scored (Returned results)) as [a E].
    { intros ? [= <-]. exact H. }
    rewrite E. discriminate.
  - rewrite (search_report_unscored results H). intros [= <-].
    split; [reflexivity|]. now exists results.
Qed.



(** ** filter_by_metadata *)

Lemma truthy_iff (s : string) : truthy s = true <-> s <> "".
Proof. destruct s; simpl; split; congruence. Qed.





Section FilterFacts.

Variable lower : string -> string.






End FilterFacts.

(** ** analyze_tech_stack *)

Lemma sort_by_date_perm (l : list Article) : Permutation (sort_by_date l) l.
Proof. apply sort_by_perm. Qed.

Lemma sort_by_date_sorted (l : list Article) :
  StronglySorted newer_or_same (sort_by_date l).
Proof.
  apply (sort_by_strongly_sorted
           (fun x y => String.leb (date_key y) (date_key x))).
  - intros x y. destruct (String.leb_total (date_key x) (date_key y)); auto.
  - intros x y z Hxy Hyz. exact (string_leb_trans _ _ _ Hyz Hxy).
Qed.

Lemma sort_by_date_stable (l : list Article) (d : string) :
  filter (fun a => String.eqb (date_key a) d) (sort_by_date l)
  = filter (fun a => String.eqb (date_key a) d) l.
Proof.
  apply sort_by_stable. intros x y Hx Hy.
  apply String.eqb_eq in Hx, Hy. rewrite Hx, Hy.
  destruct (String.leb_total d d); assumption.
Qed.

(** In a list in descending order of [date_key] the articles without a date,
    whose key is the empty string, are at the end. *)
Lemma undated_last (l : list Article) :
  StronglySorted newer_or_same l -> all_before has_date l = true.
Proof.
  induction 1 as [|x l Hs IH Hx]; [reflexivity|]. simpl.
  destruct (has_date x) eqn:Dx; [exact IH|].
  apply forallb_forall. intros y Hy. rewrite Forall_forall in Hx.
  specialize (Hx y Hy). unfold newer_or_same in Hx. unfold has_date in *.
  destruct (date_key x); [|discriminate].
  apply string_leb_empty_inv in Hx. now rewrite Hx.
Qed.

Lemma strongly_sorted_split {A} (R : A -> A -> Prop) (l : list A) (n : nat) :
  StronglySorted R l ->
  forall a b, In a (firstn n l) -> In b (skipn n l) -> R a b.
Proof.
  intros Hs. revert n. induction Hs as [|x l Hs IH Hx]; intros n a b Ha Hb.
  - rewrite firstn_nil in Ha. contradiction.
  - destruct n as [|n]; [contradiction|]. simpl in Ha, Hb.
    destruct Ha as [<-|Ha].
    + rewrite Forall_forall in Hx. apply Hx.
      rewrite <- (firstn_skipn n l). apply in_or_app. now right.
    + now apply (IH n).
Qed.

(** C3, refuted as stated: "docker" matches the key "Docker", under which
    an undated article stands before a dated one; the sort puts the dated
    article first and the undated one last, so the undated articles do not
    come first. *)
Lemma analyze_tech_stack_undated_not_first :
  (exists tech articles,
      In (tech, articles) docker_index
      /\ contains (ascii_lower "docker") (ascii_lower tech) = true)
  /\ sort_by_date (matching_articles ascii_lower docker_index "docker")
     = [ article "Docker for Python" (Some "2024-01-01");
         article "Containers at home" None ]
  /\ undated_first (sort_by_date (matching_articles ascii_lower docker_index "docker"))
     = false.
Proof.
  split; [|split; reflexivity].
  exists "Docker". eexists. split; [left; reflexivity | reflexivity].
Qed.

(** C3, as the code has it.  For a technology that matches a key of the
    index, [analyze_tech_stack] sorts the collected articles by date in
    descending order, an article without a date counting as the empty
    string and so coming last; articles with the same date keep their
    order; the articles listed are the first 5 of the sorted list, and none
    of the others is more recent than any of them. *)
Theorem analyze_tech_stack_sorted
    (lower : string -> string)
    (tech_index_data : list (string * list Article)) (technology : string) :
  (exists tech articles,
      In (tech, articles) tech_index_data
      /\ contains (lower technology) (lower tech) = true) ->
  let unsorted := matching_articles lower tech_index_data technology in
  let sorted := sort_by_date unsorted in
  Permutation sorted unsorted
  /\ StronglySorted
       (fun x y => String.leb (get y.(art_date) "") (get x.(art_date) "") = true)
       sorted
  /\ (forall d,
        filter (fun a => String.eqb (get a.(art_date) "") d) sorted
        = filter (fun a => String.eqb (get a.(art_date) "") d) unsorted)
  /\ all_before has_date sorted = true
  /\ (forall a b, In a (firstn 5 sorted) -> In b (skipn 5 sorted) ->
        String.leb (get b.(art_date) "") (get a.(art_date) "") = true)
  /\ (unsorted = [] ->
      analyze_tech_stack lower tech_index_data technology
      = "No articles found mentioning '" ++ technology ++ "'.")
  /\ (unsorted <> [] ->
      analyze_tech_stack lower tech_index_data technology
      = join nl
          ([ "📊 Analysis for '" ++ technology ++ "':" ++ nl;
             "Total articles: " ++ str_nat (List.length sorted) ]
           +++ date_range sorted
           +++ [ nl ++ "Articles mentioning '" ++ technology ++ "':" ++ nl ]
           +++ flat_map analyze_entry (firstn 5 sorted)
           +++ analyze_more sorted)).
Proof.
  intros _ unsorted sorted.
  pose proof (sort_by_date_sorted unsorted) as Hs. fold sorted in Hs.
  repeat split.
  - apply sort_by_date_perm.
  - exact Hs.
  - intros d. apply sort_by_date_stable.
  - now apply undated_last.
  - intros a b. now apply (strongly_sorted_split newer_or_same sorted 5).
  - unfold analyze_tech_stack. fold unsorted. now intros ->.
  - unfold analyze_tech_stack. fold unsorted.
    destruct unsorted; [congruence | reflexivity].
Qed.

(** The theorem at the index with an undated and a dated article under
    "Docker". *)
Lemma analyze_tech_stack_sorted_witness :
  sort_by_date (matching_articles ascii_lower docker_index "docker")
  = [ article "Docker for Python" (Some "2024-01-01");
      article "Containers at home" None ]
  /\ all_before has_date
       (sort_by_date (matching_articles ascii_lower docker_index "docker")) = true.
Proof.
  split; [reflexivity|].
  apply (analyze_tech_stack_sorted ascii_lower docker_index "docker").
  exists "Docker". eexists. split; [left; reflexivity | reflexivity].
Defined.

(** ** find_content_gaps *)

Lemma filter_perm {A} (p : A -> bool) (l l' : list A) :
  Permutation l l' -> Permutation (filter p l) (filter p l').
Proof.
  induction 1 as [|x l l' _ IH|x y l|l l' l'' _ IH1 _ IH2]; simpl.
  - constructor.
  - destruct (p x); [now constructor | exact IH].
  - destruct (p x), (p y); try reflexivity. apply perm_swap.
  - now transitivity (filter p l').
Qed.

Lemma strongly_sorted_impl {A} (R R' : A -> A -> Prop) (l : list A) :
  (forall x y, R x y -> R' x y) -> StronglySorted R l -> StronglySorted R' l.
Proof.
  intros HR. induction 1 as [|x l Hs IH Hx]; constructor; [exact IH|].
  eapply Forall_impl; [|exact Hx]. intros y. apply HR.
Qed.

Lemma sorted_tech_perm (idx : list (string * list Article)) :
  Permutation (sorted_tech idx) (tech_counts idx).
Proof. apply sort_by_perm. Qed.

Lemma sorted_tech_sorted (idx : list (string * list Article)) :
  StronglySorted (fun x y => snd x <= snd y) (sorted_tech idx).
Proof.
  apply (strongly_sorted_impl (fun x y => (snd x <=? snd y)%nat = true)).
  - intros x y. apply Nat.leb_le.
  - apply (sort_by_strongly_sorted (fun x y => (snd x <=? snd y)%nat)).
    + intros x y. rewrite !Nat.leb_le. lia.
    + intros x y z. rewrite !Nat.leb_le. lia.
Qed.

Lemma limited_coverage_prefix (idx : list (string * list Article)) :
  limited_coverage idx
  = firstn 10 (filter (fun item => (snd item <? 3)%nat) (sorted_tech idx)).
Proof.
  unfold limited_coverage.
  apply (filter_firstn_sorted (fun x y => snd x <= snd y)).
  - intros x y. rewrite !Nat.ltb_lt. lia.
  - apply sorted_tech_sorted.
Qed.

(** C4, refuted as stated: of eleven technologies with one article each,
    the eleventh has fewer than 3 articles and is not in the text; the ten
    before it are the ones listed. *)
Lemma find_content_gaps_omits_eleventh :
  In ("T11", 1) (tech_counts eleven_technologies)
  /\ contains (coverage_line ("T11", 1))
              (find_content_gaps [] eleven_technologies) = false
  /\ limited_coverage eleven_technologies
     = firstn 10 (tech_counts eleven_technologies).
Proof.
  split; [|split; vm_compute; reflexivity].
  vm_compute. repeat (try (left; reflexivity); right).
Qed.

(** C4, as the code has it.  [find_content_gaps] looks at the 10
    technologies with the fewest articles only (in ascending order of their
    number of articles, technologies with as many articles in the order of
    the index) and lists those of them with fewer than 3 articles: every
    technology listed has fewer than 3 articles, none with 3 or more is
    listed, and all with fewer than 3 are listed when there are 10 of them
    at most.  In the index with the counts A:1, B:3 and C:5 (what the
    mapping written A:1, B:2, B:3, C:5 holds) A alone is listed. *)
Theorem find_content_gaps_limited_coverage
    (articles_manifest : list Article)
    (tech_index_data : list (string * list Article)) :
  let counts := tech_counts tech_index_data in
  let sorted := sorted_tech tech_index_data in
  let listed := limited_coverage tech_index_data in
  (Permutation sorted counts
   /\ StronglySorted (fun x y => snd x <= snd y) sorted
   /\ forall n, filter (fun item => (snd item =? n)%nat) sorted
                = filter (fun item => (snd item =? n)%nat) counts)
  /\ listed = firstn 10 (filter (fun item => (snd item <? 3)%nat) sorted)
  /\ (forall item, In item listed -> In item counts /\ snd item < 3)
  /\ (forall item, In item counts -> 3 <= snd item -> ~ In item listed)
  /\ (List.length (filter (fun item => (snd item <? 3)%nat) counts) <= 10 ->
      forall item, In item counts -> snd item < 3 -> In item listed)
  /\ find_content_gaps articles_manifest tech_index_data
     = join nl
         ([ "📈 Content Gap Analysis" ++ nl;
            "Total articles: " ++ str_nat (List.length articles_manifest);
            "Articles since 2023: "
              ++ str_nat (List.length (recent_articles articles_manifest)) ++ nl;
            "Technologies with limited coverage (< 3 articles):" ]
          +++ map (fun item => "  • " ++ fst item ++ ": " ++ str_nat (snd item)
                               ++ " article(s)") listed
          +++ [ nl ++ "📅 Publishing frequency by year:" ]
          +++ map (year_line (year_counts articles_manifest))
                  (sort_by Z.leb (map fst (year_counts articles_manifest)))
          +++ [ nl ++ "💡 Recommendations:";
                "  • Consider deep dives on underserved technologies";
                "  • Update older popular articles";
                "  • Combine technologies you know well but haven't written about together" ])
  /\ tech_counts sample_index = [ ("A", 1); ("B", 3); ("C", 5) ]
  /\ limited_coverage sample_index = [ ("A", 1) ]
  /\ find_content_gaps [] sample_index
     = "📈 Content Gap Analysis" ++ nl ++ nl
       ++ "Total articles: 0" ++ nl
       ++ "Articles since 2023: 0" ++ nl ++ nl
       ++ "Technologies with limited coverage (< 3 articles):" ++ nl
       ++ "  • A: 1 article(s)" ++ nl ++ nl
       ++ "📅 Publishing frequency by year:" ++ nl ++ nl
       ++ "💡 Recommendations:" ++ nl
       ++ "  • Consider deep dives on underserved technologies" ++ nl
       ++ "  • Update older popular articles" ++ nl
       ++ "  • Combine technologies you know well but haven't written about together".
Proof.
  intros counts sorted listed.
  pose proof (sorted_tech_perm tech_index_data) as Hperm.
  pose proof (sorted_tech_sorted tech_index_data) as Hsorted.
  pose proof (limited_coverage_prefix tech_index_data) as Hlisted.
  fold sorted counts in Hperm. fold sorted in Hsorted. fold sorted listed in Hlisted.
  assert (Hin : forall item, In item listed -> In item counts /\ snd item < 3).
  { intros item Hi. rewrite Hlisted in Hi. apply In_firstn in Hi.
    apply filter_In in Hi as [Hi Hp]. split.
    - now apply (Permutation_in _ Hperm).
    - now apply Nat.ltb_lt in Hp. }
  split; [split; [exact Hperm | split]|].
  - exact Hsorted.
  - intros n. apply sort_by_stable. intros x y Hx Hy.
    apply Nat.eqb_eq in Hx, Hy. apply Nat.leb_le. lia.
  - split; [exact Hlisted|]. split; [exact Hin|]. split; [|split; [|split]].
    + intros item _ Hge Hi. apply Hin in Hi. lia.
    + intros Hlen item Hi Hlt. rewrite Hlisted, firstn_all2.
      * apply filter_In. split.
        -- apply (Permutation_in _ (Permutation_sym Hperm) Hi).
        -- now apply Nat.ltb_lt.
      * rewrite (Permutation_length (filter_perm _ _ _ Hperm)). exact Hlen.
    + reflexivity.
    + split; [|split]; vm_compute; reflexivity.
Qed.

(** ** get_full_article *)

Lemma filter_all {A} (p : A -> bool) (l : list A) :
  (forall x, p x = true) -> filter p l = l.
Proof.
  intros H. induction l as [|x l IH]; simpl; [reflexivity|].
  now rewrite H, IH.
Qed.

Section EmptyTitle.

Variable lower : string -> string.
Hypothesis lower_ascii : lowers_ascii lower.

Lemma title_matches_empty (articles_manifest : list Article) :
  title_matches lower articles_manifest "" = articles_manifest.
Proof.
  unfold title_matches. apply filter_all. intros a.
  rewrite (lower_empty lower lower_ascii). apply contains_empty.
Qed.

(** C10.  The empty title matches every article.  With two articles or
    more the answer is the list of the first 5 titles, which is the same
    whatever the other fields of the articles hold; with one article it is
    that article in full. *)
Theorem get_full_article_empty_title (articles_manifest : list Article) :
  title_matches lower articles_manifest "" = articles_manifest
  /\ (2 <= List.length articles_manifest ->
      get_full_article lower articles_manifest ""
      = "Multiple matches found. Please be more specific:" ++ nl
        ++ join nl (map (fun title => "  • " ++ title)
                        (firstn 5 (map art_title articles_manifest)))
      /\ List.length (firstn 5 (map art_title articles_manifest)) <= 5
      /\ forall other : list Article,
           map art_title other = map art_title articles_manifest ->
           get_full_article lower other "" = get_full_article lower articles_manifest "")
  /\ (forall article, articles_manifest = [article] ->
      get_full_article lower articles_manifest ""
      = join nl
          ([ "Title: " ++ article.(art_title);
             "Date: " ++ get article.(art_date) "Unknown";
             "Tags: " ++ join ", " article.(art_tags);
             "Tech: " ++ join ", " article.(art_tech_stack);
             "Word count: " ++ str_int (get article.(art_word_count) 0%Z);
             nl ++ "--- Content ---" ++ nl;
             take 2000 (get article.(art_content) "") ]
           +++ (if (2000 <? len (get article.(art_content) ""))%nat
                then [ nl ++ "... (content truncated)" ]
                else []))).
Proof.
  assert (Hmany : forall m : list Article, 2 <= List.length m ->
            get_full_article lower m ""
            = "Multiple matches found. Please be more specific:" ++ nl
              ++ join nl (map (fun title => "  • " ++ title)
                              (firstn 5 (map art_title m)))).
  { intros m Hm. unfold get_full_article. rewrite title_matches_empty.
    destruct m as [|a [|b m]]; simpl in Hm; try lia.
    rewrite firstn_map, map_map. reflexivity. }
  split; [apply title_matches_empty|]. split.
  - intros Hlen. split; [now apply Hmany|]. split.
    + rewrite length_firstn. lia.
    + intros other Hother. rewrite !Hmany; [now rewrite Hother | assumption |].
      rewrite <- (length_map art_title), Hother, length_map. assumption.
  - intros article ->. unfold get_full_article. rewrite title_matches_empty.
    reflexivity.
Qed.

End EmptyTitle.

(** The theorem at a catalog of two articles, with [str.lower] on ASCII. *)
Lemma get_full_article_empty_title_witness :
  get_full_article ascii_lower
    [ article "Docker for Python" (Some "2024-01-01");
      article "Containers at home" None ] ""
  = "Multiple matches found. Please be more specific:" ++ nl
    ++ "  • Docker for Python" ++ nl ++ "  • Containers at home".
Proof.
  destruct (get_full_article_empty_title ascii_lower ascii_lower_lowers
              [ article "Docker for Python" (Some "2024-01-01");
                article "Containers at home" None ]) as (_ & H & _).
  simpl in H. destruct H as [H _]; [lia|]. exact H.
Defined.

(** ** The handlers *)

Section HandlerFacts.

Import Workflows.

Variable lower : string -> string.
Hypothesis lower_ascii : lowers_ascii lower.

Lemma mentions_iff (words : list string) (query : string) :
  mentions lower words query = true
  <-> exists word, In word words /\ contains word (lower query) = true.
Proof. unfold mentions, any. apply existsb_exists. Qed.

Lemma mentions_truthy (words : list string) (query : string) :
  forallb truthy words = true ->
  mentions lower words query = true -> truthy query = true.
Proof.
  intros Hw Hm. apply mentions_iff in Hm as (word & Hin & Hc).
  rewrite forallb_forall in Hw.
  destruct query as [|c q]; [|reflexivity].
  rewrite (lower_empty lower lower_ascii) in Hc.
  exact (contains_nonempty _ _ (Hw _ Hin) Hc).
Qed.

(** On a query of ASCII characters the tests of the handlers are those of
    [ascii_lower]. *)
Lemma mentions_ascii (words : list string) (query : string) :
  is_ascii query = true ->
  mentions lower words query = mentions ascii_lower words query.
Proof. intros H. unfold mentions. now rewrite (lower_ascii query H). Qed.

Lemma mentioned_tech_ascii (query : string) :
  is_ascii query = true ->
  mentioned_tech lower query = mentioned_tech ascii_lower query.
Proof.
  intros H. unfold mentioned_tech. apply filter_ext_in. intros tech Hin.
  rewrite (lower_ascii query H). unfold tech_keywords in Hin.
  repeat (destruct Hin as [<-|Hin];
          [now rewrite lower_ascii by reflexivity|]).
  destruct Hin.
Qed.

(** [search_articles] returns when every result retrieved has a score. *)
Lemma search_articles_returns
    (retrieve : string -> Z -> outcome (list SearchResult))
    (query : string) (top_k : Z) :
  (forall results, retrieve query top_k = Returned results ->
                   Forall (fun result => result.(score) <> None) results) ->
  exists answer, search_articles retrieve query top_k = Returned answer.
Proof. apply search_report_scored. Qed.


(** The loop over the technologies calls [analyze_tech_stack] once for each
    of them, in order, and only adds to the parts. *)
Lemma for_each_coverage (tech_index_data : list (string * list Article))
    (techs : list string) (result_parts : list string) :
  exists added,
    for_each techs (coverage_step lower tech_index_data) result_parts
    = (map Call_analyze_tech_stack techs, Returned (result_parts +++ added)).
Proof.
  revert result_parts. induction techs as [|tech techs IH]; intros result_parts.
  - exists []. simpl. now rewrite app_nil_r.
  - cbn [for_each]. unfold coverage_step at 1, call_analyze_tech_stack, bind, ret.
    destruct (negb (contains "No articles found"
                      (analyze_tech_stack lower tech_index_data tech))).
    + destruct (IH (result_parts
                    +++ [ nl ++ "🔧 **" ++ title tech ++ " Coverage:**";
                          analyze_tech_stack lower tech_index_data tech ]))
        as [added ->].
      eexists. simpl. rewrite <- app_assoc. reflexivity.
    + destruct (IH result_parts) as [added ->]. eexists. reflexivity.
Qed.

(** C1.  A query that holds a word of the gap group and a word of the
    strategy group is answered by the gap branch alone: the one tool called
    is [find_content_gaps], once, and the answer is the dashboard heading,
    the heading "Content Gap Analysis", the gap analysis and the footer, so
    nothing of the strategy branch. *)
Theorem analyze_content_gap_before_strategy
    (articles_manifest : list Article)
    (tech_index_data : list (string * list Article))
    (retrieve : string -> Z -> outcome (list SearchResult))
    (query : string) :
  (exists word, In word ["gap"; "opportunity"; "missing"; "underserved"]
                /\ contains word (lower query) = true) ->
  (exists word, In word ["strategy"; "next"; "recommend"; "suggest"; "improve"]
                /\ contains word (lower query) = true) ->
  analyze_content lower articles_manifest tech_index_data retrieve query
  = ([ Call_find_content_gaps ],
     Returned
       (join nl
          [ "📊 **Content Analytics Dashboard**" ++ nl;
            "**Content Gap Analysis:**";
            find_content_gaps articles_manifest tech_index_data;
            nl ++ "🔒 **Private Mode:** Full analytics access with detailed content insights and strategic recommendations." ])).
Proof.
  intros Hgap _.
  assert (Hm : mentions lower gap_words query = true)
    by (apply mentions_iff; exact Hgap).
  unfold analyze_content.
  rewrite (mentions_truthy gap_words query eq_refl Hm), Hm.
  reflexivity.
Qed.


(** The fallback text holds "No relevant articles found" only when the
    reason of the failure does. *)
Lemma search_fallback_guard (e : string) :
  contains "No relevant articles found" (search_fallback e)
  = contains "No relevant articles found" e.
Proof.
  unfold search_fallback.
  change ("LlamaCloud search unavailable (" ++ e
          ++ "). Using local article metadata search instead.")
    with ("LlamaCloud search unavailable "
          ++ String "("
               (e ++ String ")"
                       ". Using local article metadata search instead.")).
  rewrite contains_around_char by reflexivity.
  rewrite contains_around_char by reflexivity.
  replace (contains "No relevant articles found" "LlamaCloud search unavailable ")
    with false by (vm_compute; reflexivity).
  replace (contains "No relevant articles found"
             ". Using local article metadata search instead.")
    with false by (vm_compute; reflexivity).
  now rewrite orb_false_r.
Qed.

(** C9, refuted as stated: when the search fails with the reason "No
    relevant articles found", the fallback text holds the phrase the guard
    looks for and is dropped; the answer to "hi" is the menu and the note,
    without the search heading. *)
Lemma discover_articles_drops_fallback :
  unavailable "No relevant articles found" "hi" 3%Z
  = Raised "No relevant articles found"
  /\ result_of
       (discover_articles ascii_lower []
          (unavailable "No relevant articles found") "hi")
     = Returned (join nl (discovery_menu +++ [ discovery_note ]))
  /\ contains "🔍 **Search Results:**"
       (join nl (discovery_menu +++ [ discovery_note ])) = false
  /\ contains (search_fallback "No relevant articles found")
       (join nl (discovery_menu +++ [ discovery_note ])) = false.
Proof. repeat split; vm_compute; reflexivity. Qed.

(** C9, as the code has it.  When the search fails for a reason whose text
    does not hold "No relevant articles found", the answer of the discovery
    handler to a non-empty query starts with the heading "Search Results"
    and the fallback text; the guard tests for that one phrase, which the
    fallback text holds exactly when the reason does. *)
Theorem discover_articles_shows_fallback
    (tech_index_data : list (string * list Article))
    (retrieve : string -> Z -> outcome (list SearchResult))
    (query e : string) :
  query <> "" ->
  retrieve query 3%Z = Raised e ->
  contains "No relevant articles found" e = false ->
  contains "No relevant articles found" (search_fallback e) = false
  /\ exists coverage,
       result_of (discover_articles lower tech_index_data retrieve query)
       = Returned
           (join nl
              ([ "🔍 **Search Results:**";
                 "LlamaCloud search unavailable (" ++ e
                 ++ "). Using local article metadata search instead." ]
               +++ coverage
               +++ [ nl ++ "📚 **Note:** I provide article summaries and teasers to help you discover interesting content. For full articles, visit the original Medium posts." ])).
Proof.
  intros Hq Hraise He.
  pose proof (search_fallback_guard e) as Hguard. rewrite He in Hguard.
  split; [exact Hguard|].
  apply truthy_iff in Hq. unfold discover_articles. rewrite Hq. cbn [negb].
  unfold call_search_articles, search_articles, bind at 1.
  rewrite Hraise. cbn [search_report].
  unfold search_part. rewrite Hguard. cbn [negb].
  destruct (for_each_coverage tech_index_data
              (firstn 2 (mentioned_tech lower query))
              [ "🔍 **Search Results:**"; search_fallback e ])
    as [added ->].
  exists added. reflexivity.
Qed.

End HandlerFacts.

Section HandlerInstances.

Import Workflows.

(** The theorem at a query that holds "gap" and both "strategy" and
    "next". *)
Lemma analyze_content_gap_before_strategy_witness :
  analyze_content ascii_lower [] [] (unavailable "down")
    "Which gaps should my strategy close next?"
  = ([ Call_find_content_gaps ],
     Returned
       (join nl
          [ "📊 **Content Analytics Dashboard**" ++ nl;
            "**Content Gap Analysis:**";
            find_content_gaps [] [];
            nl ++ "🔒 **Private Mode:** Full analytics access with detailed content insights and strategic recommendations." ])).
Proof.
  apply (analyze_content_gap_before_strategy ascii_lower ascii_lower_lowers).
  - exists "gap". split; [simpl; tauto | reflexivity].
  - exists "strategy". split; [simpl; tauto | reflexivity].
Defined.



(** The theorem at a search that fails with "timed out". *)
Lemma discover_articles_shows_fallback_witness :
  exists coverage,
    result_of (discover_articles ascii_lower docker_index
                 (unavailable "timed out") "hi")
    = Returned
        (join nl
           ([ "🔍 **Search Results:**";
              "LlamaCloud search unavailable (timed out). Using local article metadata search instead." ]
            +++ coverage
            +++ [ nl ++ "📚 **Note:** I provide article summaries and teasers to help you discover interesting content. For full articles, visit the original Medium posts." ])).
Proof.
  apply (discover_articles_shows_fallback ascii_lower docker_index
           (unavailable "timed out") "hi" "timed out").
  - discriminate.
  - reflexivity.
  - reflexivity.
Defined.

End HandlerInstances.

(** ** The /chat endpoint *)

Section EndpointFacts.

Import SimpleApi.

(** C5, refuted as stated: with the mode "summary", which is none of the
    three, the query engine receives the query alone, without the discovery
    prefix, and the answer carries the mode "summary". *)
Lemma chat_unknown_mode_not_discovery :
  prompt (request_of_body "hi" (Some "summary")) = "hi"
  /\ prompt (request_of_body "hi" (Some "summary"))
     <> "You are a discovery agent. Provide brief summaries and teasers about articles. Query: "
        ++ "hi"
  /\ chat (fun prompt => Returned prompt) (request_of_body "hi" (Some "summary"))
     = Success "hi" "summary"
  /\ chat (fun prompt => Returned prompt) (request_of_body "hi" None)
     = Success
         "You are a discovery agent. Provide brief summaries and teasers about articles. Query: hi"
         "discovery".
Proof. repeat split; try reflexivity. discriminate. Qed.

(** C5, as the code has it.  A request without a mode is a request in mode
    "discovery": the query engine receives the discovery prefix followed by
    the query.  A request whose mode is none of the three receives no
    prefix: the query engine receives the query as it is, and the mode is
    returned as it was given. *)
Theorem chat_missing_or_unknown_mode
    (query_index : string -> outcome string) (query : string) :
  (request_of_body query None = {| query := query; mode := "discovery" |}
   /\ chat query_index (request_of_body query None)
      = match query_index
                ("You are a discovery agent. Provide brief summaries and teasers about articles. Query: "
                 ++ query) with
        | Returned response => Success response "discovery"
        | Raised e => Error e
        end)
  /\ (forall m,
        m <> "discovery" -> m <> "tech-explorer" -> m <> "analytics" ->
        prompt (request_of_body query (Some m)) = query
        /\ chat query_index (request_of_body query (Some m))
           = match query_index query with
             | Returned response => Success response m
             | Raised e => Error e
             end).
Proof.
  split; [split; reflexivity|].
  intros m H1 H2 H3.
  assert (Hp : prompt (request_of_body query (Some m)) = query).
  { unfold prompt, request_of_body. simpl.
    apply String.eqb_neq in H1, H2, H3. now rewrite H1, H2, H3. }
  split; [exact Hp|]. unfold chat. rewrite Hp. reflexivity.
Qed.

End EndpointFacts.

(** ** The catalog is read only *)

Section StoreFacts.

Import Imp.

Variable lower : string -> string.

Lemma nth_last {A} (h : list A) (x d : A) : nth (List.length h) (h +++ [x]) d = x.
Proof. rewrite app_nth2, Nat.sub_diag by lia. reflexivity. Qed.

Lemma update_last {A} (h : list A) (x y : A) :
  update (List.length h) y (h +++ [x]) = h +++ [y].
Proof. induction h as [|z h IH]; simpl; [reflexivity | now rewrite IH]. Qed.

Lemma extends_refl (s : Store) : extends s s.
Proof. repeat split. exists []. now rewrite app_nil_r. Qed.

Lemma extends_heap (s : Store) (fresh : list (list Article)) :
  extends s (with_heap s (s.(heap) +++ fresh)).
Proof. repeat split. now exists fresh. Qed.

(** A well-formed store that is extended holds the same catalog. *)
Lemma extends_catalog (s s' : Store) :
  well_formed s -> extends s s' ->
  manifest_of s' = manifest_of s /\ tech_index_of s' = tech_index_of s.
Proof.
  intros [Hm Hi] ([fresh Hh] & Em & Ei). unfold manifest_of, tech_index_of.
  rewrite Em, Ei, Hh. split.
  - now apply app_nth1.
  - apply map_ext_in. intros item Hin. f_equal. apply app_nth1.
    rewrite Forall_forall in Hi. now apply Hi.
Qed.

Lemma list_append_last (s : Store) (h : list (list Article))
    (acc : list Article) (x : Article) :
  s.(heap) = h +++ [acc] ->
  list_append (List.length h) x s = (tt, with_heap s (h +++ [acc +++ [x]])).
Proof.
  intros Hh. unfold list_append, bind, deref, assign.
  now rewrite Hh, nth_last, update_last.
Qed.

Lemma list_extend_last (s : Store) (h : list (list Article))
    (acc : list Article) (src : loc) :
  s.(heap) = h +++ [acc] -> src < List.length h ->
  list_extend (List.length h) src s
  = (tt, with_heap s (h +++ [acc +++ nth src h []])).
Proof.
  intros Hh Hsrc. unfold list_extend, bind, deref, assign.
  now rewrite Hh, nth_last, update_last, app_nth1.
Qed.

Lemma list_sort_last (s : Store) (h : list (list Article))
    (acc : list Article) (le : Article -> Article -> bool) :
  s.(heap) = h +++ [acc] ->
  list_sort (List.length h) le s = (tt, with_heap s (h +++ [sort_by le acc])).
Proof.
  intros Hh. unfold list_sort, bind, deref, assign.
  now rewrite Hh, nth_last, update_last.
Qed.

(** The loop of [filter_by_metadata] appends the selected articles to the
    list it was given, and touches nothing else. *)
Lemma filter_loop (tech : option string) (year : option Z) (tag : option string)
    (articles : list Article) (h : list (list Article)) :
  forall (s : Store) (acc : list Article),
    s.(heap) = h +++ [acc] ->
    for_each articles
      (fun article =>
         if selected lower tech year tag article
         then list_append (List.length h) article
         else ret tt) s
    = (tt, with_heap s
             (h +++ [acc +++ filter (selected lower tech year tag) articles])).
Proof.
  induction articles as [|x articles IH]; intros s acc Hh.
  - simpl. unfold ret. rewrite app_nil_r, <- Hh. now destruct s.
  - cbn [for_each filter]. unfold bind at 1.
    destruct (selected lower tech year tag x).
    + rewrite (list_append_last s h acc x Hh).
      rewrite (IH (with_heap s (h +++ [acc +++ [x]])) (acc +++ [x]) eq_refl).
      rewrite <- app_assoc. reflexivity.
    + unfold ret at 1. now apply IH.
Qed.

(** The loop of [analyze_tech_stack] extends the list it was given with the
    lists of the matching technologies, and touches nothing else. *)
Lemma analyze_loop (technology : string) (items : list (string * loc))
    (h : list (list Article)) :
  forall (s : Store) (acc : list Article),
    s.(heap) = h +++ [acc] ->
    Forall (fun item : string * loc => snd item < List.length h) items ->
    for_each items
      (fun item : string * loc =>
         let (tech, article_list) := item in
         if contains (lower technology) (lower tech)
         then list_extend (List.length h) article_list
         else ret tt) s
    = (tt, with_heap s
             (h +++ [acc +++ matching_articles lower
                               (map (fun item : string * loc =>
                                       (fst item, nth (snd item) h []))
                                    items)
                               technology])).
Proof.
  induction items as [|[tech l] items IH]; intros s acc Hh Hwf.
  - simpl. unfold ret, matching_articles. simpl.
    rewrite app_nil_r, <- Hh. now destruct s.
  - inversion Hwf as [|? ? Hl Hrest]; subst. simpl in Hl.
    cbn [for_each]. unfold bind at 1. unfold matching_articles.
    cbn [map flat_map fst snd].
    destruct (contains (lower technology) (lower tech)).
    + rewrite (list_extend_last s h acc l Hh Hl).
      rewrite (IH (with_heap s (h +++ [acc +++ nth l h []]))
                 (acc +++ nth l h []) eq_refl Hrest).
      unfold matching_articles. rewrite <- app_assoc. reflexivity.
    + unfold ret at 1. rewrite (IH s acc Hh Hrest).
      unfold matching_articles. reflexivity.
Qed.

Lemma read_lists_run (items : list (string * loc)) (s : Store) :
  map_each items
    (fun item : string * loc =>
       bind (deref (snd item)) (fun v => ret (fst item, v))) s
  = (map (fun item : string * loc => (fst item, nth (snd item) s.(heap) []))
         items, s).
Proof.
  induction items as [|item items IH]; [reflexivity|].
  cbn [map_each map]. unfold bind at 1. unfold bind at 1, deref at 1, ret at 1.
  unfold bind at 1. rewrite IH. reflexivity.
Qed.

Lemma read_tech_index_run (s : Store) :
  read_tech_index s = (tech_index_of s, s).
Proof.
  unfold read_tech_index, bind at 1, global_tech_index_data.
  apply read_lists_run.
Qed.

End StoreFacts.

Section ReadOnly.

Import Imp.

Variable lower : string -> string.

Lemma filter_by_metadata_run (s : Store) (tech : option string)
    (year : option Z) (tag : option string) :
  well_formed s ->
  exists fresh,
    Imp.filter_by_metadata lower tech year tag s
    = (Tools.filter_by_metadata lower (manifest_of s) tech year tag,
       with_heap s (s.(heap) +++ fresh)).
Proof.
  intros [Hm _].
  unfold Imp.filter_by_metadata, Tools.filter_by_metadata, filter_matches,
    manifest_of.
  unfold bind at 1, new_list at 1. unfold bind at 1, global_articles_manifest.
  unfold bind at 1, deref at 1. unfold bind at 1.
  cbn [heap articles_manifest with_heap].
  rewrite (app_nth1 _ _ _ Hm).
  rewrite (filter_loop lower tech year tag _ (heap s)
             (with_heap s (heap s +++ [[]])) [] eq_refl).
  cbn [app]. unfold bind at 1, deref at 1. cbn [heap with_heap].
  rewrite nth_last.
  destruct (filter (selected lower tech year tag) (nth (articles_manifest s) (heap s) []))
    as [|a found] eqn:E.
  - exists [[]]. reflexivity.
  - exists [a :: found; firstn 10 (a :: found)].
    unfold bind, new_list, ret. cbn [heap with_heap].
    rewrite <- app_assoc. reflexivity.
Qed.

Lemma analyze_tech_stack_run (s : Store) (technology : string) :
  well_formed s ->
  exists fresh,
    Imp.analyze_tech_stack lower technology s
    = (Tools.analyze_tech_stack lower (tech_index_of s) technology,
       with_heap s (s.(heap) +++ fresh)).
Proof.
  intros [_ Hi].
  unfold Imp.analyze_tech_stack, Tools.analyze_tech_stack, tech_index_of.
  unfold bind at 1, new_list at 1. unfold bind at 1, global_tech_index_data.
  unfold bind at 1.
  cbn [heap tech_index_data with_heap].
  rewrite (analyze_loop lower technology _ (heap s)
             (with_heap s (heap s +++ [[]])) [] eq_refl Hi).
  cbn [app]. unfold bind at 1, deref at 1. cbn [heap with_heap].
  rewrite nth_last.
  destruct (matching_articles lower _ technology) as [|a unsorted] eqn:E.
  - exists [[]]. reflexivity.
  - unfold bind at 1.
    rewrite (list_sort_last
               (with_heap (with_heap s (heap s +++ [[]]))
                  (heap s +++ [a :: unsorted]))
               (heap s) (a :: unsorted) _ eq_refl).
    unfold bind at 1, deref at 1. cbn [heap with_heap]. rewrite nth_last.
    eexists [_; _]. unfold bind, new_list, ret. cbn [heap with_heap].
    rewrite <- app_assoc. reflexivity.
Qed.

Lemma find_content_gaps_run (s : Store) :
  exists fresh,
    Imp.find_content_gaps s
    = (Tools.find_content_gaps (manifest_of s) (tech_index_of s),
       with_heap s (s.(heap) +++ fresh)).
Proof.
  unfold Imp.find_content_gaps. unfold bind at 1.
  rewrite read_tech_index_run.
  eexists [_]. reflexivity.
Qed.

Lemma get_full_article_run (s : Store) (article_title : string) :
  exists fresh,
    Imp.get_full_article lower article_title s
    = (Tools.get_full_article lower (manifest_of s) article_title,
       with_heap s (s.(heap) +++ fresh)).
Proof.
  unfold Imp.get_full_article.
  unfold bind at 1, global_articles_manifest. unfold bind at 1, deref at 1.
  unfold bind at 1, new_list at 1. unfold bind at 1, deref at 1.
  cbn [heap with_heap]. rewrite nth_last. fold (manifest_of s).
  destruct (title_matches lower (manifest_of s) article_title) as [|a [|b found]].
  - exists [[]]. reflexivity.
  - exists [[a]]. reflexivity.
  - eexists [_; _]. unfold bind, new_list, ret. cbn [heap with_heap].
    rewrite <- app_assoc. reflexivity.
Qed.

Lemma search_articles_run
    (get_llamacloud_index : outcome unit)
    (retrieve : string -> Z -> outcome (list SearchResult))
    (s : Store) (query : string) (top_k : Z) :
  exists connected,
    Imp.search_articles get_llamacloud_index retrieve query top_k s
    = (Tools.search_articles
         (fun query top_k =>
            if s.(index) then retrieve query top_k
            else match get_llamacloud_index with
                 | Returned _ => retrieve query top_k
                 | Raised e => Raised e
                 end)
         query top_k,
       with_index s connected).
Proof.
  unfold Imp.search_articles, Tools.search_articles, bind, get_index, ret.
  destruct (index s) eqn:E.
  - exists true. rewrite <- E. now destruct s.
  - destruct get_llamacloud_index as [[]|e].
    + exists true. reflexivity.
    + exists false. rewrite <- E. now destruct s.
Qed.

(** C8.  In a store whose catalog names refer to objects, each of the five
    functions returns what it returns on the catalog of the store, and
    leaves every object that was in the store as it was, the manifest and
    the list of each technology among them, under the same names: the
    lists that [filter_by_metadata] and [analyze_tech_stack] append to,
    extend and sort are new objects; [search_articles] may set [index] and
    changes nothing else. *)
Theorem query_functions_read_only
    (get_llamacloud_index : outcome unit)
    (retrieve : string -> Z -> outcome (list SearchResult))
    (s : Imp.Store) :
  Imp.well_formed s ->
  let unchanged (s' : Imp.Store) :=
    Imp.extends s s'
    /\ Imp.manifest_of s' = Imp.manifest_of s
    /\ Imp.tech_index_of s' = Imp.tech_index_of s in
  (forall query top_k,
     unchanged (snd (Imp.search_articles get_llamacloud_index retrieve
                       query top_k s))
     /\ (snd (Imp.search_articles get_llamacloud_index retrieve
                query top_k s)).(Imp.heap) = s.(Imp.heap)
     /\ fst (Imp.search_articles get_llamacloud_index retrieve query top_k s)
        = Tools.search_articles
            (fun query top_k =>
               if s.(Imp.index) then retrieve query top_k
               else match get_llamacloud_index with
                    | Returned _ => retrieve query top_k
                    | Raised e => Raised e
                    end)
            query top_k)
  /\ (forall tech year tag,
        unchanged (snd (Imp.filter_by_metadata lower tech year tag s))
        /\ fst (Imp.filter_by_metadata lower tech year tag s)
           = Tools.filter_by_metadata lower (Imp.manifest_of s) tech year tag)
  /\ (forall technology,
        unchanged (snd (Imp.analyze_tech_stack lower technology s))
        /\ fst (Imp.analyze_tech_stack lower technology s)
           = Tools.analyze_tech_stack lower (Imp.tech_index_of s) technology)
  /\ (unchanged (snd (Imp.find_content_gaps s))
      /\ fst (Imp.find_content_gaps s)
         = Tools.find_content_gaps (Imp.manifest_of s) (Imp.tech_index_of s))
  /\ (forall article_title,
        unchanged (snd (Imp.get_full_article lower article_title s))
        /\ fst (Imp.get_full_article lower article_title s)
           = Tools.get_full_article lower (Imp.manifest_of s) article_title).
Proof.
  intros Hwf unchanged.
  assert (Hext : forall s', extends s s' -> unchanged s').
  { intros s' He. split; [exact He|]. now apply extends_catalog. }
  split; [|split; [|split; [|split]]].
  - intros query top_k.
    destruct (search_articles_run get_llamacloud_index retrieve s query top_k)
      as [connected ->].
    cbn [snd fst]. split; [|split; reflexivity].
    apply Hext. repeat split. exists []. cbn [heap with_index].
    now rewrite app_nil_r.
  - intros tech year tag.
    destruct (filter_by_metadata_run s tech year tag Hwf) as [fresh ->].
    split; [apply Hext, extends_heap | reflexivity].
  - intros technology.
    destruct (analyze_tech_stack_run s technology Hwf) as [fresh ->].
    split; [apply Hext, extends_heap | reflexivity].
  - destruct (find_content_gaps_run s) as [fresh ->].
    split; [apply Hext, extends_heap | reflexivity].
  - intros article_title.
    destruct (get_full_article_run s article_title) as [fresh ->].
    split; [apply Hext, extends_heap | reflexivity].
Qed.

End ReadOnly.

(** The theorem at a store of two list objects, for [analyze_tech_stack]. *)
Lemma query_functions_read_only_witness :
  Imp.manifest_of (snd (Imp.analyze_tech_stack ascii_lower "docker" sample_store))
  = Imp.manifest_of sample_store
  /\ Imp.tech_index_of (snd (Imp.analyze_tech_stack ascii_lower "docker" sample_store))
     = Imp.tech_index_of sample_store
  /\ fst (Imp.analyze_tech_stack ascii_lower "docker" sample_store)
     = Tools.analyze_tech_stack ascii_lower (Imp.tech_index_of sample_store) "docker".
Proof.
  assert (Hwf : Imp.well_formed sample_store).
  { split; [simpl; lia | repeat constructor; simpl; lia]. }
  destruct (query_functions_read_only ascii_lower (Returned tt) (unavailable "down")
              sample_store Hwf)
    as (_ & _ & Hanalyze & _).
  destruct (Hanalyze "docker") as [(_ & Hm & Hi) Hr].
  exact (conj Hm (conj Hi Hr)).
Defined.

(* ================================================================== *)
(** * Further properties of the tools *)
(* ================================================================== *)

(** ** get_full_article: one match, and no match *)

Lemma take_all (n : nat) (s : string) : len s <= n -> take n s = s.
Proof.
  revert n; induction s as [|c s IH]; intros n H; simpl in *; [reflexivity|].
  destruct (is_continuation c).
  - now rewrite IH.
  - destruct n as [|n]; [lia|]. rewrite IH; [reflexivity | lia].
Qed.

(** X1.  When one title matches, the article is shown in full: its content
    as it is when it has 2000 characters at most, and otherwise its first
    2000 characters, which are not all of it, followed by the truncation
    line. *)
Theorem get_full_article_single_match (lower : string -> string)
    (articles_manifest : list Article) (article_title : string)
    (article : Article) :
  title_matches lower articles_manifest article_title = [article] ->
  let content := get article.(art_content) "" in
  let heading :=
    [ "Title: " ++ article.(art_title);
      "Date: " ++ get article.(art_date) "Unknown";
      "Tags: " ++ join ", " article.(art_tags);
      "Tech: " ++ join ", " article.(art_tech_stack);
      "Word count: " ++ str_int (get article.(art_word_count) 0%Z);
      nl ++ "--- Content ---" ++ nl ] in
  (len content <= 2000 ->
   get_full_article lower articles_manifest article_title
   = join nl (heading +++ [ content ]))
  /\ (2000 < len content ->
      get_full_article lower articles_manifest article_title
      = join nl (heading +++ [ take 2000 content;
                               nl ++ "... (content truncated)" ])
      /\ len (take 2000 content) = 2000
      /\ exists rest, content = take 2000 content ++ rest /\ rest <> "").
Proof.
  intros Hm content heading. unfold get_full_article. rewrite Hm.
  unfold render_article. fold content. split.
  - intros Hle. rewrite (take_all 2000 content Hle).
    destruct (Nat.ltb_spec 2000 (len content)) as [Hlt|_]; [lia | reflexivity].
  - intros Hlt. split; [|split].
    + destruct (Nat.ltb_spec 2000 (len content)) as [_|Hle]; [reflexivity | lia].
    + rewrite len_take. lia.
    + destruct (take_prefix 2000 content) as [rest E]. exists rest.
      split; [exact E|]. intros ->. rewrite append_empty_r in E.
      pose proof (len_take 2000 content) as L. rewrite <- E in L. lia.
Qed.

(** The theorem at a manifest whose one article has a short content. *)
Lemma get_full_article_single_match_witness :
  get_full_article ascii_lower [ short_article ] "docker"
  = join nl
      [ "Title: Docker for Python"; "Date: Unknown"; "Tags: "; "Tech: ";
        "Word count: 0"; nl ++ "--- Content ---" ++ nl; "Short text." ].
Proof.
  refine (proj1 (get_full_article_single_match ascii_lower
                   [ short_article ] "docker" short_article eq_refl) _).
  vm_compute. lia.
Defined.

(** X2.  The answer is the not-found message exactly when the lowered
    query occurs in the lowered title of no article of the manifest. *)
Theorem get_full_article_not_found (lower : string -> string)
    (articles_manifest : list Article) (article_title : string) :
  get_full_article lower articles_manifest article_title
  = "No article found with title containing '" ++ article_title ++ "'"
  <-> forall article, In article articles_manifest ->
        contains (lower article_title) (lower article.(art_title)) = false.
Proof.
  unfold get_full_article, title_matches. split.
  - intros H article Hin.
    destruct (contains (lower article_title) (lower (art_title article))) eqn:E;
      [|reflexivity].
    assert (Hf : In article
                   (filter (fun a => contains (lower article_title)
                                              (lower (art_title a)))
                           articles_manifest))
      by (apply filter_In; auto).
    destruct (filter _ articles_manifest) as [|a [|b l]].
    + contradiction.
    + unfold render_article in H. simpl in H. discriminate.
    + simpl in H. discriminate.
  - intros H. rewrite filter_none; [reflexivity|]. exact H.
Qed.

(** ** filter_by_metadata: absent filters, and filters one after another *)

Lemma selected_no_filter (lower : string -> string)
    (tech : option string) (year : option Z)
    (tag : option string) (article : Article) :
  given_str tech = None -> given_int year = None -> given_str tag = None ->
  selected lower tech year tag article = true.
Proof. unfold selected. now intros -> -> ->. Qed.

(** X3.  A filter that is absent, the empty string or the year 0 does not
    filter: with no other filter every article of the manifest matches, and
    the answer is the one of the call without arguments. *)
Theorem filter_by_metadata_no_filter (lower : string -> string)
    (articles_manifest : list Article)
    (tech : option string) (year : option Z) (tag : option string) :
  tech = None \/ tech = Some "" ->
  year = None \/ year = Some 0%Z ->
  tag = None \/ tag = Some "" ->
  filter_matches lower articles_manifest tech year tag = articles_manifest
  /\ filter_by_metadata lower articles_manifest tech year tag
     = filter_by_metadata lower articles_manifest None None None.
Proof.
  intros Htech Hyear Htag.
  assert (E1 : given_str tech = None) by (destruct Htech as [->| ->]; reflexivity).
  assert (E2 : given_int year = None) by (destruct Hyear as [->| ->]; reflexivity).
  assert (E3 : given_str tag = None) by (destruct Htag as [->| ->]; reflexivity).
  assert (Hall : forall t y g,
            given_str t = None -> given_int y = None -> given_str g = None ->
            filter_matches lower articles_manifest t y g = articles_manifest).
  { intros t y g H1 H2 H3. unfold filter_matches. apply filter_all.
    intros a. now apply selected_no_filter. }
  split; [now apply Hall|].
  unfold filter_by_metadata. rewrite (Hall tech year tag E1 E2 E3).
  rewrite (Hall None None None eq_refl eq_refl eq_refl).
  unfold filter_report, filter_entry. rewrite E1. reflexivity.
Qed.

(** The theorem at the empty strings and the year 0. *)
Lemma filter_by_metadata_no_filter_witness :
  filter_matches ascii_lower [ article "Notes" None; article "More notes" None ]
    (Some "") (Some 0%Z) (Some "")
  = [ article "Notes" None; article "More notes" None ].
Proof.
  apply (filter_by_metadata_no_filter ascii_lower
           [ article "Notes" None; article "More notes" None ]
           (Some "") (Some 0%Z) (Some ""));
    right; reflexivity.
Defined.

Lemma filter_filter {A} (p q : A -> bool) (l : list A) :
  filter p (filter q l) = filter (fun x => q x && p x) l.
Proof.
  induction l as [|x l IH]; [reflexivity|]. simpl.
  destruct (q x); simpl; [destruct (p x)|]; now rewrite IH.
Qed.

Lemma selected_split (lower : string -> string)
    (tech : option string) (year : option Z)
    (tag : option string) (article : Article) :
  selected lower tech year tag article
  = selected lower tech None None article
    && selected lower None year None article
    && selected lower None None tag article.
Proof.
  unfold selected. cbn [given_str given_int].
  destruct (match given_str tech with Some _ => _ | None => _ end);
    destruct (match given_int year with Some _ => _ | None => _ end);
    destruct (match given_str tag with Some _ => _ | None => _ end);
    reflexivity.
Qed.

(** X4.  The three filters act one by one: filtering by all of them is
    filtering by technology, then the result by year, then that by tag.  So
    a filter more never adds an article, the matches are articles of the
    manifest, and there are no more matches than articles. *)
Theorem filter_by_metadata_filters_compose (lower : string -> string)
    (articles_manifest : list Article)
    (tech : option string) (year : option Z) (tag : option string) :
  filter_matches lower articles_manifest tech year tag
  = filter_matches lower
      (filter_matches lower
         (filter_matches lower articles_manifest tech None None)
                      None year None)
      None None tag
  /\ (forall article,
        In article (filter_matches lower articles_manifest tech year tag) ->
        In article (filter_matches lower articles_manifest tech None None)
        /\ In article (filter_matches lower articles_manifest None year None)
        /\ In article (filter_matches lower articles_manifest None None tag)
        /\ In article articles_manifest)
  /\ List.length (filter_matches lower articles_manifest tech year tag)
     <= List.length articles_manifest.
Proof.
  unfold filter_matches. split; [|split].
  - rewrite !filter_filter. apply filter_ext. intros a.
    rewrite (selected_split lower tech year tag a). symmetry. apply andb_assoc.
  - intros a Ha. apply filter_In in Ha as [Hin Hs].
    rewrite selected_split in Hs.
    apply andb_true_iff in Hs as [Hs H3]. apply andb_true_iff in Hs as [H1 H2].
    repeat split; try apply filter_In; auto.
  - apply filter_length_le.
Qed.

(** ** analyze_tech_stack: the date range and the totals *)

Lemma string_leb_refl (a : string) : String.leb a a = true.
Proof. destruct (String.leb_total a a); assumption. Qed.

Lemma string_ltb_false (a b : string) :
  String.leb b a = true -> String.ltb a b = false.
Proof.
  unfold String.leb, String.ltb. rewrite (String.compare_antisym a b).
  destruct (String.compare b a); simpl; congruence.
Qed.

Lemma string_min_step (a b : string) :
  String.leb b a = true -> (if String.ltb b a then b else a) = b.
Proof.
  intros H. destruct (String.ltb b a) eqn:E; [reflexivity|].
  apply String.leb_antisym; [|exact H].
  unfold String.ltb in E. unfold String.leb.
  rewrite (String.compare_antisym a b).
  destruct (String.compare b a); simpl in *; congruence.
Qed.

Lemma last_cons {A} (x d : A) (l : list A) : last (x :: l) d = last l x.
Proof.
  revert x d; induction l as [|y l IH]; intros x d; [reflexivity|].
  change (last (x :: y :: l) d) with (last (y :: l) d).
  now rewrite (IH y d), (IH y x).
Qed.

Section Descending.

Let later (x y : string) : Prop := String.leb y x = true.

Lemma str_max_descending (d : string) (ds : list string) :
  Forall (later d) ds -> str_max d ds = d.
Proof.
  unfold str_max. induction 1 as [|y ds Hy _ IH]; [reflexivity|]. simpl.
  now rewrite (string_ltb_false d y Hy).
Qed.

Lemma str_min_descending (d : string) (ds : list string) :
  StronglySorted later (d :: ds) -> str_min d ds = last ds d.
Proof.
  unfold str_min. revert d; induction ds as [|y ds IH]; intros d Hs;
    [reflexivity|].
  inversion Hs as [|? ? Hs' Hd]; subst. inversion Hd as [|? ? Hy _]; subst.
  simpl fold_left. rewrite (string_min_step d y Hy), (IH y Hs').
  symmetry. apply last_cons.
Qed.

Lemma descending_bounds (d : string) (ds : list string) :
  StronglySorted later (d :: ds) ->
  forall x, In x (d :: ds) ->
    String.leb (last ds d) x = true /\ String.leb x d = true.
Proof.
  revert d; induction ds as [|y ds IH]; intros d Hs x Hx.
  - destruct Hx as [<-|[]]. simpl. split; apply string_leb_refl.
  - inversion Hs as [|? ? Hs' Hd]; subst.
    change (last (y :: ds) d) with (last (y :: ds) d). rewrite last_cons.
    destruct Hx as [<-|Hx].
    + split; [|apply string_leb_refl].
      destruct (IH y Hs' y (or_introl eq_refl)) as [Hlo _].
      inversion Hd as [|? ? Hy _]; subst.
      exact (string_leb_trans _ _ _ Hlo Hy).
    + destruct (IH y Hs' x Hx) as [Hlo Hhi]. split; [exact Hlo|].
      rewrite Forall_forall in Hd. now apply Hd.
Qed.

End Descending.

Lemma dates_of_dated (l : list Article) :
  dates_of l = map date_key (filter has_date l).
Proof.
  induction l as [|a l IH]; [reflexivity|].
  unfold dates_of in *. cbn [flat_map filter]. rewrite IH.
  destruct (art_date a) as [d|] eqn:E.
  - assert (Hk : date_key a = d) by (unfold date_key; now rewrite E).
    assert (Hh : has_date a = truthy d) by (unfold has_date; now rewrite Hk).
    rewrite Hh. destruct (truthy d); [cbn [map]; now rewrite Hk | reflexivity].
  - assert (Hh : has_date a = false)
      by (unfold has_date, date_key; now rewrite E).
    rewrite Hh. reflexivity.
Qed.

Lemma dated_sorted (l : list Article) :
  StronglySorted newer_or_same l ->
  StronglySorted (fun x y => String.leb y x = true)
                 (map date_key (filter has_date l)).
Proof.
  induction 1 as [|a l Hs IH Ha]; [constructor|]. cbn [filter].
  destruct (has_date a); [|exact IH]. cbn [map]. constructor; [exact IH|].
  apply Forall_forall. intros d Hd. apply in_map_iff in Hd as (b & <- & Hb).
  apply filter_In in Hb as [Hb _]. rewrite Forall_forall in Ha.
  exact (Ha b Hb).
Qed.

(** X5.  When an article has a date, "Latest mention" is the date of the
    first article listed and "First mention" is the date of the last dated
    article of the sorted list; as strings, no date of the list is before
    the first mention or after the latest. *)
Theorem analyze_tech_stack_date_range (lower : string -> string)
    (tech_index_data : list (string * list Article)) (technology : string)
    (d : string) (ds : list string) :
  let sorted := sort_by_date (matching_articles lower tech_index_data technology) in
  dates_of sorted = d :: ds ->
  date_range sorted
  = [ "First mention: " ++ take 10 (last ds d);
      "Latest mention: " ++ take 10 d ]
  /\ (forall x, In x (d :: ds) ->
        String.leb (last ds d) x = true /\ String.leb x d = true)
  /\ (exists first rest,
        sorted = first :: rest /\ first.(art_date) = Some d)
  /\ analyze_tech_stack lower tech_index_data technology
     = join nl
         ([ "📊 Analysis for '" ++ technology ++ "':" ++ nl;
            "Total articles: " ++ str_nat (List.length sorted);
            "First mention: " ++ take 10 (last ds d);
            "Latest mention: " ++ take 10 d;
            nl ++ "Articles mentioning '" ++ technology ++ "':" ++ nl ]
          +++ flat_map analyze_entry (firstn 5 sorted)
          +++ analyze_more sorted).
Proof.
  intros sorted Hd.
  pose proof (sort_by_date_sorted (matching_articles lower tech_index_data technology))
    as Hs. fold sorted in Hs.
  pose proof (dated_sorted sorted Hs) as Hds.
  rewrite <- dates_of_dated, Hd in Hds.
  assert (Hrange : date_range sorted
                   = [ "First mention: " ++ take 10 (last ds d);
                       "Latest mention: " ++ take 10 d ]).
  { unfold date_range. rewrite Hd.
    rewrite (str_min_descending d ds Hds).
    inversion Hds; subst. now rewrite (str_max_descending d ds). }
  split; [exact Hrange|]. split; [now apply descending_bounds|]. split.
  - pose proof (undated_last sorted Hs) as Hu.
    destruct sorted as [|first rest] eqn:E; [discriminate|].
    exists first, rest. split; [reflexivity|].
    rewrite dates_of_dated in Hd. cbn [filter all_before] in Hd, Hu.
    destruct (has_date first) eqn:Hf.
    + cbn [map] in Hd. injection Hd as Hk _. unfold has_date, date_key, get in *.
      destruct (art_date first) as [d'|]; [now subst | discriminate].
    + rewrite filter_none in Hd; [discriminate|].
      rewrite forallb_forall in Hu. intros y Hy.
      now apply negb_true_iff, Hu.
  - unfold analyze_tech_stack.
    destruct (matching_articles lower tech_index_data technology) as [|a l] eqn:E.
    + subst sorted. discriminate.
    + fold sorted. unfold analyze_report. rewrite Hrange. reflexivity.
Qed.

(** The theorem at the index with one dated article under "Docker". *)
Lemma analyze_tech_stack_date_range_witness :
  date_range (sort_by_date (matching_articles ascii_lower docker_index "docker"))
  = [ "First mention: 2024-01-01"; "Latest mention: 2024-01-01" ].
Proof.
  apply (analyze_tech_stack_date_range ascii_lower docker_index "docker" "2024-01-01" []).
  reflexivity.
Defined.

Lemma matching_articles_length (lower : string -> string) (idx : list (string * list Article))
    (technology : string) :
  List.length (matching_articles lower idx technology)
  = list_sum
      (map (fun item : string * list Article =>
              if contains (lower technology) (lower (fst item))
              then List.length (snd item) else 0) idx).
Proof.
  unfold matching_articles. induction idx as [|[tech l] idx IH]; [reflexivity|].
  cbn [flat_map map list_sum fst snd]. rewrite length_app, IH.
  now destruct (contains (lower technology) (lower tech)).
Qed.

(** X6.  "Total articles" is the sum of the lengths of the lists of the
    matching technologies, so an article under two matching technologies
    counts twice.  The answer is the not-found message exactly when that
    total is 0; otherwise 5 articles at most are listed, and the line "...
    and N more articles" is there exactly when the total is above 5, with N
    the number of articles not listed. *)
Theorem analyze_tech_stack_total (lower : string -> string)
    (tech_index_data : list (string * list Article)) (technology : string) :
  let sorted := sort_by_date (matching_articles lower tech_index_data technology) in
  let total := List.length sorted in
  total
  = list_sum
      (map (fun item : string * list Article =>
              if contains (lower technology) (lower (fst item))
              then List.length (snd item) else 0) tech_index_data)
  /\ (analyze_tech_stack lower tech_index_data technology
      = "No articles found mentioning '" ++ technology ++ "'."
      <-> total = 0)
  /\ List.length (firstn 5 sorted) = Nat.min 5 total
  /\ (total <= 5 -> analyze_more sorted = [])
  /\ (5 < total ->
      analyze_more sorted
      = [ "... and " ++ str_nat (total - 5) ++ " more articles" ]
      /\ List.length (firstn 5 sorted) + (total - 5) = total).
Proof.
  intros sorted total.
  assert (Htotal : total
                   = List.length (matching_articles lower tech_index_data technology)).
  { unfold total, sorted, sort_by_date. apply sort_by_length. }
  split; [rewrite Htotal; apply matching_articles_length|]. split; [|split].
  - rewrite Htotal. unfold analyze_tech_stack.
    destruct (matching_articles lower tech_index_data technology) as [|a l].
    + split; reflexivity.
    + split; [|discriminate]. unfold analyze_report. simpl. discriminate.
  - apply length_firstn.
  - unfold analyze_more. fold total. split.
    + intros Hle. destruct (Nat.ltb_spec 5 total); [lia | reflexivity].
    + intros Hlt. destruct (Nat.ltb_spec 5 total); [|lia].
      split; [reflexivity|]. rewrite length_firstn. fold total. lia.
Qed.

(** X7.  The empty technology matches every key: the articles analysed are
    those of all the lists of the index, one list after the other. *)
Theorem analyze_tech_stack_empty_technology (lower : string -> string)
    (tech_index_data : list (string * list Article)) :
  lowers_ascii lower ->
  matching_articles lower tech_index_data ""
  = List.concat (map snd tech_index_data)
  /\ analyze_tech_stack lower tech_index_data ""
     = match List.concat (map snd tech_index_data) with
       | [] => "No articles found mentioning ''."
       | _ :: _ =>
           analyze_report ""
             (sort_by_date (List.concat (map snd tech_index_data)))
       end.
Proof.
  intros Hl.
  assert (H : matching_articles lower tech_index_data ""
              = List.concat (map snd tech_index_data)).
  { unfold matching_articles. rewrite (lower_empty lower Hl).
    induction tech_index_data as [|[tech l] idx IH]; [reflexivity|].
    cbn [flat_map map List.concat snd]. rewrite IH, contains_empty.
    reflexivity. }
  split; [exact H|]. unfold analyze_tech_stack. rewrite H. reflexivity.
Qed.

(** The theorem at the index with the two articles under "Docker". *)
Lemma analyze_tech_stack_empty_technology_witness :
  matching_articles ascii_lower docker_index ""
  = [ article "Containers at home" None;
      article "Docker for Python" (Some "2024-01-01") ].
Proof.
  exact (proj1 (analyze_tech_stack_empty_technology ascii_lower docker_index
                  ascii_lower_lowers)).
Defined.

(** ** find_content_gaps: the articles of each year *)

Lemma year_count_count_year (year y : Z) (counts : list (Z * nat)) :
  year_count (count_year year counts) y
  = if (year =? y)%Z then S (year_count counts y) else year_count counts y.
Proof.
  induction counts as [|[y0 n] counts IH]; simpl.
  - reflexivity.
  - destruct (Z.eqb_spec y0 year) as [->|Hne]; simpl.
    + destruct (Z.eqb_spec year y); reflexivity.
    + destruct (Z.eqb_spec y0 y) as [->|Hne'].
      * destruct (Z.eqb_spec year y); [congruence | reflexivity].
      * exact IH.
Qed.

Lemma count_year_keys (year y : Z) (counts : list (Z * nat)) :
  In y (map fst (count_year year counts))
  <-> y = year \/ In y (map fst counts).
Proof.
  induction counts as [|[y0 n] counts IH]; simpl.
  - intuition.
  - destruct (Z.eqb_spec y0 year) as [->|Hne]; simpl; [intuition|].
    rewrite IH. intuition.
Qed.

Lemma count_year_nodup (year : Z) (counts : list (Z * nat)) :
  NoDup (map fst counts) -> NoDup (map fst (count_year year counts)).
Proof.
  induction counts as [|[y0 n] counts IH]; simpl; intros H.
  - repeat constructor. intros [].
  - inversion H as [|? ? Hnot Hrest]; subst.
    destruct (Z.eqb_spec y0 year) as [->|Hne]; simpl.
    + now constructor.
    + constructor; [|now apply IH].
      rewrite count_year_keys. intros [->|Hin]; [congruence | contradiction].
Qed.

Section YearCounts.

(** The step of the loop over the manifest. *)
Let step (counts : list (Z * nat)) (article : Article) : list (Z * nat) :=
  match given_int article.(art_year) with
  | Some year => count_year year counts
  | None => counts
  end.

Let of_year (y : Z) (article : Article) : bool :=
  match article.(art_year) with
  | Some y' => negb (y' =? 0)%Z && (y' =? y)%Z
  | None => false
  end.

Lemma step_count (counts : list (Z * nat)) (article : Article) (y : Z) :
  year_count (step counts article) y
  = year_count counts y + (if of_year y article then 1 else 0).
Proof.
  unfold step, of_year, given_int.
  destruct (art_year article) as [y'|]; [|lia].
  destruct (Z.eqb_spec y' 0); simpl; [lia|].
  rewrite year_count_count_year. destruct (Z.eqb_spec y' y); lia.
Qed.

Lemma fold_count (m : list Article) (counts : list (Z * nat)) (y : Z) :
  year_count (fold_left step m counts) y
  = year_count counts y + List.length (filter (of_year y) m).
Proof.
  revert counts; induction m as [|a m IH]; intros counts; simpl; [lia|].
  rewrite IH, step_count. destruct (of_year y a); simpl; lia.
Qed.

Lemma step_keys (counts : list (Z * nat)) (article : Article) (y : Z) :
  In y (map fst (step counts article))
  <-> In y (map fst counts) \/ (y <> 0%Z /\ article.(art_year) = Some y).
Proof.
  unfold step, given_int. destruct (art_year article) as [y'|].
  - destruct (Z.eqb_spec y' 0) as [->|Hne].
    + split; [now left | intros [H|[Hy E]]; [exact H | congruence]].
    + rewrite count_year_keys. split.
      * intros [->|H]; [now right | now left].
      * intros [H|[_ E]]; [now right | left; congruence].
  - split; [now left | intros [H|[_ E]]; [exact H | discriminate]].
Qed.

Lemma fold_keys (m : list Article) (counts : list (Z * nat)) (y : Z) :
  In y (map fst (fold_left step m counts))
  <-> In y (map fst counts)
      \/ (y <> 0%Z /\ exists a, In a m /\ a.(art_year) = Some y).
Proof.
  revert counts; induction m as [|a m IH]; intros counts; simpl.
  - split; [now left | intros [H|(_ & a & [] & _)]; exact H].
  - rewrite IH, step_keys. split.
    + intros [[H|[Hy E]]|(Hy & b & Hb & Eb)].
      * now left.
      * right. split; [exact Hy|]. exists a. auto.
      * right. split; [exact Hy|]. exists b. auto.
    + intros [H|(Hy & b & [<-|Hb] & Eb)].
      * now left; left.
      * left. right. now split.
      * right. split; [exact Hy|]. now exists b.
Qed.

Lemma fold_nodup (m : list Article) (counts : list (Z * nat)) :
  NoDup (map fst counts) -> NoDup (map fst (fold_left step m counts)).
Proof.
  revert counts; induction m as [|a m IH]; intros counts H; simpl; [exact H|].
  apply IH. unfold step. destruct (given_int (art_year a)); [|exact H].
  now apply count_year_nodup.
Qed.

(** X8.  The lines of the publishing frequency name every year other than 0
    that an article of the manifest has, once, in ascending order, each with
    the number of the articles of that year; an article without a year, or
    of the year 0, is in no line. *)
Theorem find_content_gaps_year_counts (articles_manifest : list Article) :
  let counts := year_counts articles_manifest in
  let years := sort_by Z.leb (map fst counts) in
  (forall y,
     In y years
     <-> y <> 0%Z
         /\ exists a, In a articles_manifest /\ a.(art_year) = Some y)
  /\ NoDup years
  /\ StronglySorted Z.le years
  /\ map (year_line counts) years
     = map (fun y =>
              "  • " ++ str_int y ++ ": "
              ++ str_nat
                   (List.length
                      (filter (fun a => match a.(art_year) with
                                        | Some y' => (y' =? y)%Z
                                        | None => false
                                        end) articles_manifest))
              ++ " articles") years.
Proof.
  intros counts years.
  assert (Hperm : Permutation years (map fst counts)) by apply sort_by_perm.
  assert (Hkeys : forall y,
            In y years
            <-> y <> 0%Z
                /\ exists a, In a articles_manifest /\ a.(art_year) = Some y).
  { intros y. split.
    - intros H. apply (Permutation_in _ Hperm) in H.
      apply (fold_keys articles_manifest [] y) in H as [[]|H]. exact H.
    - intros H. apply (Permutation_in _ (Permutation_sym Hperm)).
      apply (fold_keys articles_manifest [] y). now right. }
  split; [exact Hkeys|]. split; [|split].
  - apply (Permutation_NoDup (Permutation_sym Hperm)).
    apply (fold_nodup articles_manifest []). constructor.
  - apply (strongly_sorted_impl (fun x y => Z.leb x y = true)).
    + intros x y. apply Z.leb_le.
    + apply sort_by_strongly_sorted.
      * intros x y. rewrite !Z.leb_le. lia.
      * intros x y z. rewrite !Z.leb_le. lia.
  - assert (Hc : forall y,
              year_count counts y
              = List.length (filter (of_year y) articles_manifest)).
    { intros y. unfold counts.
      change (year_counts articles_manifest)
        with (fold_left step articles_manifest []).
      now rewrite fold_count. }
    apply map_ext_in. intros y Hy. unfold year_line. rewrite Hc.
    do 6 f_equal. apply filter_ext. intros a. unfold of_year.
    destruct (art_year a) as [y'|]; [|reflexivity].
    destruct (Z.eqb_spec y' y) as [->|]; [|now rewrite andb_false_r].
    apply Hkeys in Hy as [Hy _]. rewrite andb_true_r.
    now destruct (Z.eqb_spec y 0).
Qed.

End YearCounts.

(* ================================================================== *)
(** * Further properties of the store *)
(* ================================================================== *)

Section StoreExtras.

Import Imp.

(** X9.  The index is made at the first search that can make it and kept:
    once [index] is set, a search is answered from the retrieval call alone,
    whatever [get_llamacloud_index] would do; a search that finds [index]
    unset and fails to make it returns the fallback text and leaves the
    store as it was, so that the next search tries again. *)
Theorem search_articles_index_is_cached
    (get_llamacloud_index : outcome unit)
    (retrieve : string -> Z -> outcome (list SearchResult))
    (s : Store) (query : string) (top_k : Z) :
  (s.(index) = true ->
   Imp.search_articles get_llamacloud_index retrieve query top_k s
   = (search_report (retrieve query top_k), s))
  /\ (s.(index) = false -> get_llamacloud_index = Returned tt ->
      Imp.search_articles get_llamacloud_index retrieve query top_k s
      = (search_report (retrieve query top_k), with_index s true)
      /\ forall later query' top_k',
           Imp.search_articles later retrieve query' top_k' (with_index s true)
           = (search_report (retrieve query' top_k'), with_index s true))
  /\ (forall e,
        s.(index) = false -> get_llamacloud_index = Raised e ->
        Imp.search_articles get_llamacloud_index retrieve query top_k s
        = (Returned (search_fallback e), s)).
Proof.
  unfold Imp.search_articles, bind, get_index, ret. split; [|split].
  - intros ->. reflexivity.
  - intros -> ->. split; reflexivity.
  - intros e -> ->. reflexivity.
Qed.

Lemma extends_well_formed (s s' : Store) :
  well_formed s -> extends s s' -> well_formed s'.
Proof.
  intros [Hm Hi] ([fresh Hh] & Em & Ei). unfold well_formed.
  rewrite Em, Ei, Hh, length_app. split; [lia|].
  eapply Forall_impl; [|exact Hi]. intros item H. simpl in H. lia.
Qed.

(** X10.  A query function returns the same text in every store that holds
    the objects of a well-formed store under the same names, whatever new
    objects it holds besides: the lists that earlier calls have made change
    no later answer. *)
Theorem query_functions_frame (lower : string -> string) (s s' : Store) :
  well_formed s -> extends s s' ->
  well_formed s'
  /\ (forall tech year tag,
        fst (Imp.filter_by_metadata lower tech year tag s')
        = fst (Imp.filter_by_metadata lower tech year tag s))
  /\ (forall technology,
        fst (Imp.analyze_tech_stack lower technology s')
        = fst (Imp.analyze_tech_stack lower technology s))
  /\ fst (Imp.find_content_gaps s') = fst (Imp.find_content_gaps s)
  /\ (forall article_title,
        fst (Imp.get_full_article lower article_title s')
        = fst (Imp.get_full_article lower article_title s)).
Proof.
  intros Hwf Hext.
  pose proof (extends_well_formed s s' Hwf Hext) as Hwf'.
  destruct (extends_catalog s s' Hwf Hext) as [Em Ei].
  split; [exact Hwf'|]. split; [|split; [|split]].
  - intros tech year tag.
    destruct (filter_by_metadata_run lower s tech year tag Hwf) as [f ->].
    destruct (filter_by_metadata_run lower s' tech year tag Hwf') as [f' ->].
    cbn [fst]. now rewrite Em.
  - intros technology.
    destruct (analyze_tech_stack_run lower s technology Hwf) as [f ->].
    destruct (analyze_tech_stack_run lower s' technology Hwf') as [f' ->].
    cbn [fst]. now rewrite Ei.
  - destruct (find_content_gaps_run s) as [f ->].
    destruct (find_content_gaps_run s') as [f' ->].
    cbn [fst]. now rewrite Em, Ei.
  - intros article_title.
    destruct (get_full_article_run lower s article_title) as [f ->].
    destruct (get_full_article_run lower s' article_title) as [f' ->].
    cbn [fst]. now rewrite Em.
Qed.

(** The theorem at the sample store and the store that a call of
    [analyze_tech_stack] leaves. *)
Lemma query_functions_frame_witness :
  fst (Imp.analyze_tech_stack ascii_lower "docker"
         (snd (Imp.analyze_tech_stack ascii_lower "docker" sample_store)))
  = fst (Imp.analyze_tech_stack ascii_lower "docker" sample_store).
Proof.
  assert (Hwf : well_formed sample_store).
  { split; [simpl; lia | repeat constructor; simpl; lia]. }
  assert (Hext : extends sample_store
                   (snd (Imp.analyze_tech_stack ascii_lower "docker" sample_store))).
  { split; [|split; reflexivity]. eexists. vm_compute. reflexivity. }
  destruct (query_functions_frame ascii_lower _ _ Hwf Hext) as (_ & _ & H & _).
  exact (H "docker").
Defined.

End StoreExtras.

(* ================================================================== *)
(** * Further properties of the handlers *)
(* ================================================================== *)

Section HandlerExtras.

Import Workflows.

Lemma join_cons (sep x : string) (l : list string) :
  l <> [] -> join sep (x :: l) = x ++ sep ++ join sep l.
Proof. destruct l; [congruence | reflexivity]. Qed.

(** A text joined from parts ends with the last part. *)
Lemma join_last (sep last : string) (l : list string) :
  exists body, join sep (l +++ [ last ]) = body ++ last.
Proof.
  induction l as [|x l [body IH]].
  - now exists "".
  - exists (x ++ sep ++ body). cbn [app]. rewrite join_cons.
    + now rewrite IH, !append_assoc.
    + now destruct l.
Qed.

Lemma len_append (a b : string) : len (a ++ b) = len a + len b.
Proof.
  induction a as [|c a IH]; simpl; [reflexivity|].
  destruct (is_continuation c); simpl; now rewrite IH.
Qed.

(** A loop whose rounds each make one call and add parts makes its calls in
    the order of the list, and adds parts. *)
Lemma for_each_appends {A} (call : A -> Call)
    (body : list string -> A -> Run (list string)) (xs : list A) :
  (forall parts x,
     exists added, body parts x = ([ call x ], Returned (parts +++ added))) ->
  forall parts,
    exists added,
      for_each xs body parts = (map call xs, Returned (parts +++ added)).
Proof.
  intros Hbody. induction xs as [|x xs IH]; intros parts.
  - exists []. simpl. unfold ret. now rewrite app_nil_r.
  - cbn [for_each]. destruct (Hbody parts x) as [added1 E1].
    destruct (IH (parts +++ added1)) as [added2 E2].
    exists (added1 +++ added2). unfold bind. rewrite E1, E2.
    now rewrite app_assoc.
Qed.

Lemma coverage_step_appends (lower : string -> string) (tech_index_data : list (string * list Article))
    (parts : list string) (tech : string) :
  exists added,
    coverage_step lower tech_index_data parts tech
    = ([ Call_analyze_tech_stack tech ], Returned (parts +++ added)).
Proof.
  unfold coverage_step, call_analyze_tech_stack, bind, ret.
  destruct (negb _); eexists; cbn [app]; [reflexivity|].
  instantiate (1 := []). now rewrite app_nil_r.
Qed.

Lemma focus_step_appends (lower : string -> string) (tech_index_data : list (string * list Article))
    (parts : list string) (tech : string) :
  exists added,
    focus_step lower tech_index_data parts tech
    = ([ Call_analyze_tech_stack tech ], Returned (parts +++ added)).
Proof.
  unfold focus_step, call_analyze_tech_stack, bind, ret.
  destruct (negb _); eexists; cbn [app]; [reflexivity|].
  instantiate (1 := []). now rewrite app_nil_r.
Qed.

(** ** discover_articles *)

(** A run of the handler on a non-empty query: the search, then the
    coverage of the keywords, unless the search raises. *)
Lemma discover_articles_run (lower : string -> string)
    (tech_index_data : list (string * list Article))
    (retrieve : string -> Z -> outcome (list SearchResult))
    (query : string) :
  query <> "" ->
  match search_articles retrieve query 3 with
  | Returned _ =>
      exists parts,
        discover_articles lower tech_index_data retrieve query
        = (Call_search_articles query 3
           :: map Call_analyze_tech_stack
                (firstn 2 (mentioned_tech lower query)),
           Returned (join nl (parts +++ [ discovery_note ])))
  | Raised e =>
      discover_articles lower tech_index_data retrieve query
      = ([ Call_search_articles query 3 ], Raised e)
  end.
Proof.
  intros Hq. apply truthy_iff in Hq.
  unfold discover_articles. rewrite Hq. cbn [negb].
  unfold call_search_articles, bind at 1.
  destruct (search_articles retrieve query 3) as [found|e]; [|reflexivity].
  destruct (for_each_appends Call_analyze_tech_stack
              (coverage_step lower tech_index_data)
              (firstn 2 (mentioned_tech lower query))
              (coverage_step_appends lower tech_index_data) (search_part found))
    as [added ->].
  unfold bind, ret. rewrite app_nil_r. eexists. reflexivity.
Qed.

(** X11.  For a non-empty query the discovery handler raises exactly when
    the search does, which is when a result retrieved has no score; it has
    then made the call of [search_articles] and no other.  When every
    result retrieved has a score, and when the retrieval call raises, the
    handler returns an answer that ends with the note on teasers, after
    between 1 and 3 tool calls. *)
Theorem discover_articles_answers (lower : string -> string)
    (tech_index_data : list (string * list Article))
    (retrieve : string -> Z -> outcome (list SearchResult))
    (query : string) :
  query <> "" ->
  ((forall results, retrieve query 3%Z = Returned results ->
                    Forall (fun result => result.(score) <> None) results) ->
   (exists body,
      result_of (discover_articles lower tech_index_data retrieve query)
      = Returned
          (body ++ nl ++ "📚 **Note:** I provide article summaries and teasers to help you discover interesting content. For full articles, visit the original Medium posts."))
   /\ 1 <= List.length
             (calls_of (discover_articles lower tech_index_data retrieve query))
        <= 3)
  /\ (forall e,
        result_of (discover_articles lower tech_index_data retrieve query)
        = Raised e
        <-> search_articles retrieve query 3 = Raised e)
  /\ (forall e,
        result_of (discover_articles lower tech_index_data retrieve query)
        = Raised e ->
        calls_of (discover_articles lower tech_index_data retrieve query)
        = [ Call_search_articles query 3 ]
        /\ e = "unsupported format string passed to NoneType.__format__"
        /\ exists results,
             retrieve query 3%Z = Returned results
             /\ Exists (fun result => result.(score) = None) results).
Proof.
  intros Hq.
  pose proof (discover_articles_run lower tech_index_data retrieve query Hq)
    as Hrun.
  assert (Hiff : forall e,
            result_of (discover_articles lower tech_index_data retrieve query)
            = Raised e
            <-> search_articles retrieve query 3 = Raised e).
  { intros e. destruct (search_articles retrieve query 3) as [found|e'].
    - destruct Hrun as [parts ->]. cbn [result_of snd]. split; discriminate.
    - rewrite Hrun. cbn [result_of snd]. reflexivity. }
  split; [|split; [exact Hiff|]].
  - intros Hs.
    destruct (search_articles_returns retrieve query 3 Hs) as [found E].
    rewrite E in Hrun. destruct Hrun as [parts ->]. split.
    + destruct (join_last nl discovery_note parts) as [body Eb].
      exists body. cbn [result_of snd]. now rewrite Eb.
    + cbn [calls_of fst List.length]. rewrite length_map, length_firstn. lia.
  - intros e He. apply Hiff in He. rewrite He in Hrun. rewrite Hrun.
    split; [reflexivity|].
    unfold search_articles in He. now apply search_report_raises in He.
Qed.

(** The theorem at a search that fails. *)
Lemma discover_articles_answers_witness :
  1 <= List.length
         (calls_of (discover_articles ascii_lower docker_index
                      (unavailable "down") "Docker, Python and React")) <= 3.
Proof.
  destruct (discover_articles_answers ascii_lower docker_index
              (unavailable "down") "Docker, Python and React") as [H _];
    [discriminate|].
  destruct H as [_ H]; [discriminate|]. exact H.
Defined.

Lemma not_found_guard (technology : string) :
  contains "No articles found"
    ("No articles found mentioning '" ++ technology ++ "'.") = true.
Proof.
  apply contains_prefix.
  change ("No articles found mentioning '" ++ technology ++ "'.")
    with ("No articles found" ++ " mentioning '" ++ technology ++ "'.").
  apply prefix_app.
Qed.

Lemma coverage_without_articles (lower : string -> string)
    (tech_index_data : list (string * list Article))
    (techs : list string) (parts : list string) :
  (forall tech, In tech techs -> matching_articles lower tech_index_data tech = []) ->
  for_each techs (coverage_step lower tech_index_data) parts
  = (map Call_analyze_tech_stack techs, Returned parts).
Proof.
  revert parts; induction techs as [|tech techs IH]; intros parts H.
  - reflexivity.
  - cbn [for_each]. unfold coverage_step at 1, call_analyze_tech_stack, bind, ret.
    unfold analyze_tech_stack. rewrite (H tech (or_introl eq_refl)).
    rewrite not_found_guard. cbn [negb].
    rewrite IH by (intros t Ht; apply H; now right). reflexivity.
Qed.

(** X12.  When the search returns no result and the index has no article
    for any of the (at most 2) keywords taken from the query, the answer is
    the menu of what to ask, followed by the note. *)
Theorem discover_articles_menu (lower : string -> string)
    (tech_index_data : list (string * list Article))
    (retrieve : string -> Z -> outcome (list SearchResult))
    (query : string) :
  query <> "" ->
  retrieve query 3%Z = Returned [] ->
  (forall tech,
     In tech (firstn 2 (mentioned_tech lower query)) ->
     matching_articles lower tech_index_data tech = []) ->
  result_of (discover_articles lower tech_index_data retrieve query)
  = Returned
      (join nl
         [ "I couldn't find specific matches for your query. Here are some ways I can help:";
           "• Ask about specific technologies (Python, AI, LlamaIndex, etc.)";
           "• Request articles from specific years";
           "• Search for topics like 'patent filing', 'AI workflows', or 'productivity'";
           nl ++ "📚 **Note:** I provide article summaries and teasers to help you discover interesting content. For full articles, visit the original Medium posts." ]).
Proof.
  intros Hq Hr Hnone. apply truthy_iff in Hq.
  unfold discover_articles. rewrite Hq. cbn [negb].
  unfold call_search_articles, search_articles, bind at 1.
  rewrite Hr. cbn [search_report].
  replace (search_part "No relevant articles found.") with (@nil string)
    by (vm_compute; reflexivity).
  rewrite (coverage_without_articles lower _ _ [] Hnone). reflexivity.
Qed.

(** The theorem at an empty index and a search without result. *)
Lemma discover_articles_menu_witness :
  result_of (discover_articles ascii_lower [] (fun _ _ => Returned []) "Any Python?")
  = Returned (join nl (discovery_menu +++ [ discovery_note ])).
Proof.
  apply (discover_articles_menu ascii_lower [] (fun _ _ => Returned []) "Any Python?").
  - discriminate.
  - reflexivity.
  - reflexivity.
Defined.

End HandlerExtras.

Section AnalyticsExtras.

Import Workflows.

Variable lower : string -> string.
Hypothesis lower_ascii : lowers_ascii lower.

Variable articles_manifest : list Article.
Variable tech_index_data : list (string * list Article).
Variable retrieve : string -> Z -> outcome (list SearchResult).

(** ** analyze_content *)

(** A run of the handler on a non-empty query: the calls of the branch
    taken, and the answer, unless the search of the branch raises. *)
Lemma analyze_content_run (query : string) :
  query <> "" ->
  exists result,
    analyze_content lower articles_manifest tech_index_data retrieve query
    = ((if mentions lower gap_words query then [ Call_find_content_gaps ]
        else if mentions lower article_words query then
          [ Call_search_articles query 5 ]
        else if mentions lower pattern_words query then
          [ Call_filter_by_metadata None None None; Call_find_content_gaps ]
        else if mentions lower focus_words query then
          map Call_analyze_tech_stack
              ["AI"; "Claude"; "Python"; "LlamaIndex"; "OpenAI"]
        else if mentions lower strategy_words query then
          [ Call_find_content_gaps ]
        else [ Call_find_content_gaps; Call_search_articles query 3 ]),
       result)
    /\ match
         (if mentions lower gap_words query then None
          else if mentions lower article_words query then Some 5%Z
          else if mentions lower pattern_words query then None
          else if mentions lower focus_words query then None
          else if mentions lower strategy_words query then None
          else Some 3%Z)
       with
       | Some top_k =>
           match search_articles retrieve query top_k with
           | Returned _ =>
               exists middle,
                 result
                 = Returned (join nl ([ analytics_header ] +++ middle
                                      +++ [ analytics_footer ]))
           | Raised e => result = Raised e
           end
       | None =>
           exists middle,
             result
             = Returned (join nl ([ analytics_header ] +++ middle
                                  +++ [ analytics_footer ]))
       end.
Proof.
  intros Hq. apply truthy_iff in Hq.
  unfold analyze_content. rewrite Hq. cbn [negb].
  destruct (mentions lower gap_words query).
  { eexists. split; [reflexivity|]. eexists [_; _]. reflexivity. }
  destruct (mentions lower article_words query).
  { unfold call_search_articles, bind at 2.
    destruct (search_articles retrieve query 5) as [found|e].
    - eexists. split; [reflexivity|]. eexists [_; _; _]. reflexivity.
    - eexists. split; reflexivity. }
  destruct (mentions lower pattern_words query).
  { eexists. split; [reflexivity|]. eexists [_; _; _; _]. reflexivity. }
  destruct (mentions lower focus_words query).
  { destruct (for_each_appends Call_analyze_tech_stack
                (focus_step lower tech_index_data)
                ["AI"; "Claude"; "Python"; "LlamaIndex"; "OpenAI"]
                (focus_step_appends lower tech_index_data)
                ([ analytics_header ] +++ [ "**Technology Focus Analysis:**" ]))
      as [added E].
    unfold bind at 1. rewrite E. unfold ret. cbn [app]. rewrite app_nil_r.
    eexists. split; [reflexivity|].
    exists ("**Technology Focus Analysis:**" :: added). reflexivity. }
  destruct (mentions lower strategy_words query).
  { eexists. split; [reflexivity|]. eexists (_ :: _). reflexivity. }
  unfold call_search_articles, bind at 2. unfold bind at 2.
  destruct (search_articles retrieve query 3) as [found|e].
  - eexists. split; [reflexivity|]. eexists [_; _; _; _]. reflexivity.
  - eexists. split; reflexivity.
Qed.

Lemma analytics_frame (middle : list string) :
  exists body,
    join nl ([ analytics_header ] +++ middle +++ [ analytics_footer ])
    = "📊 **Content Analytics Dashboard**" ++ nl ++ nl ++ body
      ++ nl ++ "🔒 **Private Mode:** Full analytics access with detailed content insights and strategic recommendations.".
Proof.
  destruct (join_last nl analytics_footer middle) as [body E].
  exists body.
  change ([ analytics_header ] +++ middle +++ [ analytics_footer ])
    with (analytics_header :: (middle +++ [ analytics_footer ])).
  rewrite join_cons by (now destruct middle). rewrite E.
  unfold analytics_header. now rewrite !append_assoc.
Qed.


(** X14.  For a non-empty query the analytics handler raises in the two
    branches that search only (article words: 5 results; no group of
    words: 3 results), and there exactly when the search raises, which is
    when a result retrieved has no score.  In the other branches, and when
    every result retrieved has a score or the retrieval call raises, its
    answer starts with the dashboard heading and ends with the
    private-mode footer. *)
Theorem analyze_content_answers (query : string) :
  query <> "" ->
  let run :=
    analyze_content lower articles_manifest tech_index_data retrieve query in
  let answered :=
    exists body,
      result_of run
      = Returned
          ("📊 **Content Analytics Dashboard**" ++ nl ++ nl ++ body
           ++ nl ++ "🔒 **Private Mode:** Full analytics access with detailed content insights and strategic recommendations.") in
  match
    (if mentions lower ["gap"; "opportunity"; "missing"; "underserved"] query
     then None
     else if mentions lower ["article"; "content"; "full"; "detail"] query
     then Some 5%Z
     else if mentions lower ["pattern"; "performance"; "trend"; "frequency"]
               query
     then None
     else if mentions lower ["technology"; "tech"; "focus"; "expertise"] query
     then None
     else if mentions lower ["strategy"; "next"; "recommend"; "suggest";
                             "improve"] query
     then None
     else Some 3%Z)
  with
  | None => answered
  | Some top_k =>
      ((forall results,
          retrieve query top_k = Returned results ->
          Forall (fun result => result.(score) <> None) results) ->
       answered)
      /\ (forall e,
            result_of run = Raised e
            <-> search_articles retrieve query top_k = Raised e)
      /\ (forall e,
            result_of run = Raised e ->
            e = "unsupported format string passed to NoneType.__format__"
            /\ exists results,
                 retrieve query top_k = Returned results
                 /\ Exists (fun result => result.(score) = None) results)
  end.
Proof.
  intros Hq run answered.
  destruct (analyze_content_run query Hq) as (result & Erun & Hres).
  fold run in Erun. unfold answered. rewrite Erun. cbn [result_of snd].
  change gap_words with ["gap"; "opportunity"; "missing"; "underserved"] in Hres.
  change article_words with ["article"; "content"; "full"; "detail"] in Hres.
  change pattern_words
    with ["pattern"; "performance"; "trend"; "frequency"] in Hres.
  change focus_words with ["technology"; "tech"; "focus"; "expertise"] in Hres.
  change strategy_words
    with ["strategy"; "next"; "recommend"; "suggest"; "improve"] in Hres.
  destruct (if mentions lower _ query then None else _) as [top_k|].
  - assert (Hiff : forall e,
              result = Raised e
              <-> search_articles retrieve query top_k = Raised e).
    { intros e. destruct (search_articles retrieve query top_k) as [found|e'].
      - destruct Hres as [middle ->]. split; discriminate.
      - rewrite Hres. reflexivity. }
    split; [|split; [exact Hiff|]].
    + intros Hs.
      destruct (search_articles_returns retrieve query top_k Hs) as [found E].
      rewrite E in Hres. destruct Hres as [middle ->].
      destruct (analytics_frame middle) as [body Eb].
      exists body. now rewrite Eb.
    + intros e He. apply Hiff in He.
      unfold search_articles in He. now apply search_report_raises in He.
  - destruct Hres as [middle ->].
    destruct (analytics_frame middle) as [body Eb].
    exists body. now rewrite Eb.
Qed.

(** X15.  A query with a pattern word and neither a gap word nor an article
    word is answered with the listing of the whole manifest, cut after 1000
    characters, and the gap analysis. *)
Theorem analyze_content_patterns (query : string) :
  mentions lower gap_words query = false ->
  mentions lower article_words query = false ->
  mentions lower pattern_words query = true ->
  result_of (analyze_content lower articles_manifest tech_index_data retrieve
               query)
  = Returned
      (join nl
         [ "📊 **Content Analytics Dashboard**" ++ nl;
           "**Writing Patterns Analysis:**";
           take 1000 (filter_report None articles_manifest);
           nl ++ "**Strategic Recommendations:**";
           find_content_gaps articles_manifest tech_index_data;
           nl ++ "🔒 **Private Mode:** Full analytics access with detailed content insights and strategic recommendations." ])
  /\ len (take 1000 (filter_report None articles_manifest)) <= 1000.
Proof.
  intros Hgap Harticle Hpattern.
  split; [|rewrite len_take; lia].
  unfold analyze_content.
  rewrite (mentions_truthy lower lower_ascii pattern_words query eq_refl
             Hpattern).
  rewrite Hgap, Harticle, Hpattern. cbn [negb].
  unfold call_filter_by_metadata, call_find_content_gaps, bind, ret.
  unfold filter_by_metadata, filter_matches.
  rewrite (filter_all (selected lower None None None) articles_manifest)
    by (intros a; reflexivity).
  reflexivity.
Qed.

End AnalyticsExtras.


Lemma analyze_content_answers_witness :
  exists body,
    Workflows.result_of
      (Workflows.analyze_content ascii_lower [] [] (unavailable "down")
         "What next?")
    = Returned
        ("📊 **Content Analytics Dashboard**" ++ nl ++ nl ++ body
         ++ nl ++ "🔒 **Private Mode:** Full analytics access with detailed content insights and strategic recommendations.").
Proof.
  apply (analyze_content_answers ascii_lower [] [] (unavailable "down")
           "What next?").
  discriminate.
Defined.

Lemma analyze_content_patterns_witness :
  len (take 1000 (filter_report None [ short_article ])) <= 1000.
Proof.
  apply (analyze_content_patterns ascii_lower ascii_lower_lowers
           [ short_article ] [] (unavailable "down")
           "Any trend in my writing?");
    reflexivity.
Defined.

Section ExplorerExtras.

Import Workflows.

Variable lower : string -> string.
Hypothesis lower_ascii : lowers_ascii lower.

Variable articles_manifest : list Article.
Variable tech_index_data : list (string * list Article).
Variable retrieve : string -> Z -> outcome (list SearchResult).

(** ** explore_tech *)

Lemma expertise_step_appends (parts : list string) (tech : string) :
  exists added,
    expertise_step lower tech_index_data parts tech
    = ([ Call_analyze_tech_stack tech ], Returned (parts +++ added)).
Proof.
  unfold expertise_step, call_analyze_tech_stack, bind, ret.
  destruct (negb _); eexists; cbn [app]; [reflexivity|].
  instantiate (1 := []). now rewrite app_nil_r.
Qed.

(** What a round of the loop over the years adds: nothing, or a heading and
    a text of 500 characters at most, or of 500 characters and "...". *)
Lemma year_step_appends (parts : list string) (year : Z) :
  exists added,
    year_step lower articles_manifest parts year
    = ([ Call_filter_by_metadata None (Some year) None ],
       Returned (parts +++ added))
    /\ (added = []
        \/ exists text,
             added = [ nl ++ "**" ++ str_int year ++ ":**"; text ]
             /\ len text <= 503).
Proof.
  unfold year_step, call_filter_by_metadata, bind, ret.
  set (year_articles := filter_by_metadata lower articles_manifest None (Some year) None).
  destruct (negb (contains "No articles found" year_articles)).
  - eexists. split; [cbn [app]; reflexivity|]. right. eexists. split; [reflexivity|].
    destruct (Nat.ltb_spec 500 (len year_articles)) as [Hlt|Hle]; [|lia].
    rewrite len_append, len_take. change (len "...") with 3. lia.
  - exists []. split; [cbn [app]; now rewrite app_nil_r | now left].
Qed.


Lemma first_expertise_run (techs : list string) (query : string)
    (parts : list string) :
  first_expertise lower tech_index_data techs query parts
  = match find (fun tech => contains tech (lower query)) techs with
    | Some tech =>
        ([ Call_analyze_tech_stack tech ],
         Returned (parts
                   +++ [ "**" ++ title tech ++ " Expertise:**";
                         analyze_tech_stack lower tech_index_data tech ]))
    | None => ([], Returned parts)
    end.
Proof.
  induction techs as [|tech techs IH]; [reflexivity|].
  cbn [first_expertise find].
  destruct (contains tech (lower query)); [reflexivity | exact IH].
Qed.

Lemma mentions_find (words : list string) (query : string) :
  mentions lower words query = true ->
  exists word, find (fun word => contains word (lower query)) words = Some word.
Proof.
  unfold mentions, any. induction words as [|w words IH]; [discriminate|].
  cbn [existsb find]. destruct (contains w (lower query)); [now exists w | exact IH].
Qed.

Lemma find_first {A B} (p : A -> bool) (f : A -> B) (l : list A) :
  match find p l with Some x => [ f x ] | None => [] end
  = map f (firstn 1 (filter p l)).
Proof.
  induction l as [|x l IH]; [reflexivity|]. cbn [find filter].
  destruct (p x); [reflexivity | exact IH].
Qed.

(** A run of the handler on a non-empty query: the calls of the branch
    taken, and the answer, unless the search of the last branch raises. *)
Lemma explore_tech_run (query : string) :
  query <> "" ->
  exists result,
    explore_tech lower articles_manifest tech_index_data retrieve query
    = ((if mentions lower overview_words query then
          map Call_analyze_tech_stack
              ["AI"; "Python"; "LlamaIndex"; "Claude"; "OpenAI"]
        else if mentions lower explorer_techs query then
          match find (fun tech => contains tech (lower query)) explorer_techs
          with
          | Some tech => [ Call_analyze_tech_stack tech ]
          | None => []
          end
        else if mentions lower timeline_words query then
          map (fun year => Call_filter_by_metadata None (Some year) None)
              [2023; 2024; 2025]%Z
        else [ Call_search_articles query 3 ]),
       result)
    /\ (if mentions lower overview_words query
           || mentions lower explorer_techs query
           || mentions lower timeline_words query
        then exists middle,
               result
               = Returned (join nl ([ explorer_header ] +++ middle
                                    +++ [ explorer_footer ]))
        else match search_articles retrieve query 3 with
             | Returned _ =>
                 exists middle,
                   result
                   = Returned (join nl ([ explorer_header ] +++ middle
                                        +++ [ explorer_footer ]))
             | Raised e => result = Raised e
             end).
Proof.
  intros Hq. apply truthy_iff in Hq.
  unfold explore_tech. rewrite Hq. cbn [negb].
  destruct (mentions lower overview_words query); cbn [orb].
  { unfold call_analyze_tech_stack at 1. unfold bind at 2.
    destruct (for_each_appends Call_analyze_tech_stack
                (expertise_step lower tech_index_data)
                ["Python"; "LlamaIndex"; "Claude"; "OpenAI"]
                expertise_step_appends
                ([ explorer_header ]
                 +++ [ "**Primary Focus - AI Technologies:**";
                       analyze_tech_stack lower tech_index_data "AI" ]))
      as [added E].
    rewrite E. unfold bind, ret. cbn [app map].
    eexists. split; [reflexivity|]. eexists (_ :: _ :: added). reflexivity. }
  destruct (mentions lower explorer_techs query); cbn [orb].
  { rewrite first_expertise_run.
    destruct (find _ explorer_techs) as [tech|].
    - eexists. split; [reflexivity|]. eexists [_; _]. reflexivity.
    - eexists. split; [reflexivity|]. exists []. reflexivity. }
  destruct (mentions lower timeline_words query).
  { destruct (for_each_appends
                (fun year => Call_filter_by_metadata None (Some year) None)
                (year_step lower articles_manifest) [2023; 2024; 2025]%Z
                (fun parts year =>
                   let (added, H) := year_step_appends parts year in
                   ex_intro _ added (proj1 H))
                ([ explorer_header ] +++ [ "**Technology Evolution Timeline:**" ]))
      as [added E].
    unfold bind at 1. rewrite E. unfold ret. cbn [app]. rewrite app_nil_r.
    eexists. split; [reflexivity|].
    exists ("**Technology Evolution Timeline:**" :: added). reflexivity. }
  unfold call_search_articles, bind at 2.
  destruct (search_articles retrieve query 3) as [found|e].
  - eexists. split; [reflexivity|]. eexists [_; _]. reflexivity.
  - eexists. split; reflexivity.
Qed.

Lemma explorer_frame (middle : list string) :
  exists body,
    join nl ([ explorer_header ] +++ middle +++ [ explorer_footer ])
    = "🔬 **Technical Expertise Analysis**" ++ nl ++ nl ++ body
      ++ nl ++ "💡 **Technical Profile:** Demonstrated expertise in AI technologies, automation tools, patent filing systems, and productivity workflows. Active exploration of cutting-edge AI platforms and their practical applications.".
Proof.
  destruct (join_last nl explorer_footer middle) as [body E].
  exists body.
  change ([ explorer_header ] +++ middle +++ [ explorer_footer ])
    with (explorer_header :: (middle +++ [ explorer_footer ])).
  rewrite join_cons by (now destruct middle). rewrite E.
  unfold explorer_header. now rewrite !append_assoc.
Qed.

(** X16.  The tool calls of the tech-explorer handler are fixed by the
    first group of words that the lowered query holds: overview words, the
    analysis
    of AI, Python, LlamaIndex, Claude and OpenAI in that order; a technology
    name, one analysis, of the first name of the list python, ai, claude,
    openai, llamaindex that the query holds; timeline words, the listings of
    the years 2023, 2024 and 2025; none of these, one search for 3
    results. *)
Theorem explore_tech_calls (query : string) :
  query <> "" ->
  calls_of (explore_tech lower articles_manifest tech_index_data retrieve query)
  = if mentions lower ["technology"; "tech"; "stack"; "expertise"] query then
      [ Call_analyze_tech_stack "AI"; Call_analyze_tech_stack "Python";
        Call_analyze_tech_stack "LlamaIndex"; Call_analyze_tech_stack "Claude";
        Call_analyze_tech_stack "OpenAI" ]
    else if mentions lower ["python"; "ai"; "claude"; "openai"; "llamaindex"] query
    then
      map Call_analyze_tech_stack
          (firstn 1
             (filter (fun tech => contains tech (lower query))
                     ["python"; "ai"; "claude"; "openai"; "llamaindex"]))
    else if mentions lower ["evolution"; "timeline"; "history"; "over time"] query
    then
      [ Call_filter_by_metadata None (Some 2023%Z) None;
        Call_filter_by_metadata None (Some 2024%Z) None;
        Call_filter_by_metadata None (Some 2025%Z) None ]
    else [ Call_search_articles query 3 ].
Proof.
  intros Hq. destruct (explore_tech_run query Hq) as (result & -> & _).
  cbn [calls_of fst].
  rewrite <- (find_first (fun tech => contains tech (lower query))
                Call_analyze_tech_stack
                ["python"; "ai"; "claude"; "openai"; "llamaindex"]).
  reflexivity.
Qed.

(** X17.  For a non-empty query the tech-explorer handler raises in the
    branch that searches only (no group of words in the query), and there
    exactly when the search raises, which is when a result retrieved has no
    score.  In the other branches, and when every result retrieved has a
    score or the retrieval call raises, its answer starts with the
    expertise heading and ends with the technical profile. *)
Theorem explore_tech_answers (query : string) :
  query <> "" ->
  let run :=
    explore_tech lower articles_manifest tech_index_data retrieve query in
  let answered :=
    exists body,
      result_of run
      = Returned
          ("🔬 **Technical Expertise Analysis**" ++ nl ++ nl ++ body
           ++ nl ++ "💡 **Technical Profile:** Demonstrated expertise in AI technologies, automation tools, patent filing systems, and productivity workflows. Active exploration of cutting-edge AI platforms and their practical applications.") in
  if mentions lower ["technology"; "tech"; "stack"; "expertise"] query
     || mentions lower ["python"; "ai"; "claude"; "openai"; "llamaindex"] query
     || mentions lower ["evolution"; "timeline"; "history"; "over time"] query
  then answered
  else
    ((forall results,
        retrieve query 3%Z = Returned results ->
        Forall (fun result => result.(score) <> None) results) ->
     answered)
    /\ (forall e,
          result_of run = Raised e
          <-> search_articles retrieve query 3 = Raised e)
    /\ (forall e,
          result_of run = Raised e ->
          e = "unsupported format string passed to NoneType.__format__"
          /\ exists results,
               retrieve query 3%Z = Returned results
               /\ Exists (fun result => result.(score) = None) results).
Proof.
  intros Hq run answered.
  destruct (explore_tech_run query Hq) as (result & Erun & Hres).
  fold run in Erun. unfold answered. rewrite Erun. cbn [result_of snd].
  change overview_words
    with ["technology"; "tech"; "stack"; "expertise"] in Hres.
  change explorer_techs
    with ["python"; "ai"; "claude"; "openai"; "llamaindex"] in Hres.
  change timeline_words
    with ["evolution"; "timeline"; "history"; "over time"] in Hres.
  destruct (mentions lower _ query || mentions lower _ query
            || mentions lower _ query).
  - destruct Hres as [middle ->].
    destruct (explorer_frame middle) as [body Eb].
    exists body. now rewrite Eb.
  - assert (Hiff : forall e,
              result = Raised e
              <-> search_articles retrieve query 3 = Raised e).
    { intros e. destruct (search_articles retrieve query 3) as [found|e'].
      - destruct Hres as [middle ->]. split; discriminate.
      - rewrite Hres. reflexivity. }
    split; [|split; [exact Hiff|]].
    + intros Hs.
      destruct (search_articles_returns retrieve query 3 Hs) as [found E].
      rewrite E in Hres. destruct Hres as [middle ->].
      destruct (explorer_frame middle) as [body Eb].
      exists body. now rewrite Eb.
    + intros e He. apply Hiff in He.
      unfold search_articles in He. now apply search_report_raises in He.
Qed.

(** X18.  A query without overview word that names technologies is
    answered for one of them only, the first of the list python, ai, claude,
    openai, llamaindex that it holds, and the analysis is shown even when it
    finds no article. *)
Theorem explore_tech_first_technology (query tech : string) :
  mentions lower overview_words query = false ->
  find (fun tech => contains tech (lower query))
       ["python"; "ai"; "claude"; "openai"; "llamaindex"] = Some tech ->
  explore_tech lower articles_manifest tech_index_data retrieve query
  = ([ Call_analyze_tech_stack tech ],
     Returned
       (join nl
          [ "🔬 **Technical Expertise Analysis**" ++ nl;
            "**" ++ title tech ++ " Expertise:**";
            analyze_tech_stack lower tech_index_data tech;
            nl ++ "💡 **Technical Profile:** Demonstrated expertise in AI technologies, automation tools, patent filing systems, and productivity workflows. Active exploration of cutting-edge AI platforms and their practical applications." ])).
Proof.
  intros Hover Hfind.
  assert (Hm : mentions lower explorer_techs query = true).
  { apply mentions_iff. apply find_some in Hfind as [Hin Hc]. now exists tech. }
  unfold explore_tech.
  rewrite (mentions_truthy lower lower_ascii explorer_techs query eq_refl Hm),
    Hover, Hm.
  cbn [negb]. rewrite first_expertise_run.
  change explorer_techs with ["python"; "ai"; "claude"; "openai"; "llamaindex"].
  rewrite Hfind. reflexivity.
Qed.


End ExplorerExtras.

Lemma explore_tech_calls_witness :
  Workflows.calls_of
    (Workflows.explore_tech ascii_lower [] [] (unavailable "down") "History of my AI work")
  = [ Workflows.Call_analyze_tech_stack "ai" ].
Proof.
  apply (explore_tech_calls ascii_lower [] [] (unavailable "down") "History of my AI work").
  discriminate.
Defined.

Lemma explore_tech_answers_witness :
  exists body,
    Workflows.result_of
      (Workflows.explore_tech ascii_lower [] [] (unavailable "down") "Hello")
    = Returned
        ("🔬 **Technical Expertise Analysis**" ++ nl ++ nl ++ body
         ++ nl ++ "💡 **Technical Profile:** Demonstrated expertise in AI technologies, automation tools, patent filing systems, and productivity workflows. Active exploration of cutting-edge AI platforms and their practical applications.").
Proof.
  refine (proj1 (explore_tech_answers ascii_lower [] [] (unavailable "down")
                   "Hello" _) _);
    discriminate.
Defined.

Lemma explore_tech_first_technology_witness :
  Workflows.calls_of
    (Workflows.explore_tech ascii_lower [] docker_index (unavailable "down")
       "OpenAI or Python?")
  = [ Workflows.Call_analyze_tech_stack "python" ].
Proof.
  rewrite (explore_tech_first_technology ascii_lower ascii_lower_lowers
             [] docker_index (unavailable "down")
             "OpenAI or Python?" "python"); reflexivity.
Defined.


Section EmptyQuery.

Import Workflows.

(** X20.  Each of the three handlers answers the empty query with its
    request for a question and calls no tool; for every other query it calls
    at least one tool. *)
Theorem handlers_empty_query
    (lower : string -> string)
    (articles_manifest : list Article)
    (tech_index_data : list (string * list Article))
    (retrieve : string -> Z -> outcome (list SearchResult))
    (query : string) :
  (calls_of (discover_articles lower tech_index_data retrieve query) = []
   <-> query = "")
  /\ (calls_of (analyze_content lower articles_manifest tech_index_data
                  retrieve query)
      = [] <-> query = "")
  /\ (calls_of (explore_tech lower articles_manifest tech_index_data
                  retrieve query)
      = [] <-> query = "")
  /\ discover_articles lower tech_index_data retrieve ""
     = ([], Returned "Please provide a question about the articles.")
  /\ analyze_content lower articles_manifest tech_index_data retrieve ""
     = ([], Returned "Please specify what type of analysis you'd like: content gaps, writing patterns, article performance, or strategy recommendations.")
  /\ explore_tech lower articles_manifest tech_index_data retrieve ""
     = ([], Returned "Please ask about specific technologies or technical expertise.").
Proof.
  split; [|split; [|split; [|repeat split]]].
  - split; [|now intros ->]. intros H.
    destruct query as [|c q]; [reflexivity|].
    pose proof (discover_articles_run lower tech_index_data retrieve
                  (String c q)) as E.
    destruct (search_articles retrieve (String c q) 3).
    + destruct E as [parts E]; [discriminate|]. rewrite E in H. discriminate.
    + rewrite E in H by discriminate. discriminate.
  - split; [|now intros ->]. intros H.
    destruct query as [|c q]; [reflexivity|].
    destruct (analyze_content_run lower articles_manifest tech_index_data
                retrieve (String c q)) as (result & E & _); [discriminate|].
    rewrite E in H. cbn [calls_of fst] in H.
    destruct (mentions lower gap_words _); [discriminate|].
    destruct (mentions lower article_words _); [discriminate|].
    destruct (mentions lower pattern_words _); [discriminate|].
    destruct (mentions lower focus_words _); [discriminate|].
    destruct (mentions lower strategy_words _); discriminate.
  - split; [|now intros ->]. intros H.
    destruct query as [|c q]; [reflexivity|].
    destruct (explore_tech_run lower articles_manifest tech_index_data
                retrieve (String c q)) as (result & E & _); [discriminate|].
    rewrite E in H. cbn [calls_of fst] in H.
    destruct (mentions lower overview_words _); [discriminate|].
    destruct (mentions lower explorer_techs _) eqn:M.
    + destruct (mentions_find _ _ _ M) as [word F]. rewrite F in H.
      discriminate.
    + destruct (mentions lower timeline_words _); discriminate.
Qed.

End EmptyQuery.

(** ** The /chat endpoint: failures and the prompt *)

Section EndpointExtras.

Import SimpleApi.

(** X21.  The endpoint never raises: it answers with the status "error" and
    the text of the exception exactly when the query engine raises, and
    otherwise with the status "success", the answer of the engine and the
    mode of the request.  Whatever the mode, the prompt sent to the engine
    ends with the query as it was given. *)
Theorem chat_answers
    (query_index : string -> outcome string) (request : QueryRequest) :
  (forall e,
     query_index (prompt request) = Raised e <-> chat query_index request = Error e)
  /\ (forall response,
        query_index (prompt request) = Returned response
        <-> chat query_index request = Success response request.(mode))
  /\ (status (chat query_index request) = "error"
      <-> exists e, query_index (prompt request) = Raised e)
  /\ exists prefix, prompt request = prefix ++ request.(query).
Proof.
  unfold chat. split; [|split; [|split]].
  - intros e. destruct (query_index (prompt request)); split; congruence.
  - intros response. destruct (query_index (prompt request)); split; congruence.
  - destruct (query_index (prompt request)) as [r|e]; simpl; split.
    + discriminate.
    + intros [e H]. discriminate.
    + intros _. now exists e.
    + reflexivity.
  - unfold prompt.
    destruct (String.eqb _ "discovery"); [eexists; reflexivity|].
    destruct (String.eqb _ "tech-explorer"); [eexists; reflexivity|].
    destruct (String.eqb _ "analytics"); [eexists; reflexivity|].
    now exists "".
Qed.

End EndpointExtras.
